(** * mcp-get: configuration synchronisation between two hosts

    A shallow embedding of [src/utils/config-manager.ts] (class
    [ConfigManager]) and of the free-function variant of the same module
    ([readMergedConfigs], [writeConfig], [installMCPServer], ...), followed
    by the properties of the read / merge / write cycle.

    Conventions of the embedding:
    - a JavaScript object is the finite map of its own properties, a
      [gmap string _], together with its prototype where the code can
      change it; two objects are deep-equal exactly when the maps of their
      own properties are equal;
    - a property read [obj[key]], a test [key in obj] and an assignment
      [obj[key] = v] go through the prototype chain: they see the
      properties every object inherits from [Object.prototype], and an
      assignment to [__proto__] that reaches the accessor of
      [Object.prototype] replaces the prototype instead of storing a
      property; [Object.keys], the spread [{ ...obj }], [delete] and
      [JSON.stringify] see own properties only;
    - the TypeScript interfaces [MCPServer] / [MCPServerConfig] and
      [MCPConfig] / [ClaudeConfig] are records; an optional property is an
      [option], [None] standing for [undefined] (which [JSON.stringify]
      omits and [JSON.parse] never produces);
    - the index signature [[key: string]: any] is a map to arbitrary JSON
      values;
    - a string is the sequence of the bytes of its UTF-8 encoding;
    - the file system is the state of the two host files, threaded through
      a state-and-exception monad together with a trace of the observable
      effects (console output, directory creation, file writes).

    Scope of the embedding: a file that parses is taken to parse to an
    object of the declared interface, so a value at an object type (the
    [mcpServers] map, a server entry) is an object whenever it is present,
    while a value of the index signature may be any JSON value, falsy ones
    included. The order of the keys in the serialised text is not
    represented. *)

From Stdlib Require Import ZArith Ascii String.
From stdpp Require Import base strings gmap fin_maps option list pretty.

Open Scope string_scope.

(** ** JSON values held under the extra top-level keys

    Numbers are the integral ones; the code observes a number only through
    [ToBoolean], that is through its being zero or not. The members of a
    [JObj] are those of a parsed object, one per key. *)

#[warnings="-register-all"]
Inductive json : Type :=
  | JNull
  | JBool (b : bool)
  | JNum (n : Z)
  | JStr (s : string)
  | JArr (l : list json)
  | JObj (l : list (string * json)).

(** ECMAScript [ToBoolean] on a JSON value. *)
Definition truthy (v : json) : bool :=
  match v with
  | JNull => false
  | JBool b => b
  | JNum n => negb (n =? 0)%Z
  | JStr s => negb (String.eqb s "")
  | JArr _ => true
  | JObj _ => true
  end.

(** [ToBoolean] of a property whose declared type is an object type: an
    object is truthy, [undefined] is not. *)
Definition truthy_obj {A : Type} (o : option A) : bool :=
  match o with
  | Some _ => true
  | None => false
  end.

(** ** Inherited properties

    What a property lookup finds on the prototype chain of an object once
    the object itself has no own property of that name: nothing, a data
    property (of which the code observes the truthiness of the value), or
    the accessor [Object.prototype.__proto__]. *)

Inductive inherited : Type :=
  | NotInherited
  | InheritedData (truthy_value : bool)
  | InheritedAccessor.

(** [ToBoolean] of an inherited property. The getter of [__proto__]
    answers the prototype of the object, which is an object whenever the
    accessor is on the chain. *)
Definition truthy_inherited (i : inherited) : bool :=
  match i with
  | NotInherited => false
  | InheritedData b => b
  | InheritedAccessor => true
  end.

Definition is_inherited (i : inherited) : bool :=
  match i with
  | NotInherited => false
  | InheritedData _ | InheritedAccessor => true
  end.

(** The function-valued properties of [Object.prototype]. *)
Definition Object_prototype_functions : list string :=
  ["constructor"; "__defineGetter__"; "__defineSetter__"; "hasOwnProperty";
   "__lookupGetter__"; "__lookupSetter__"; "isPrototypeOf";
   "propertyIsEnumerable"; "toString"; "valueOf"; "toLocaleString"].

(** The lookup of [key] on [Object.prototype]. *)
Definition Object_prototype_prop (key : string) : inherited :=
  if bool_decide (key = "__proto__") then InheritedAccessor
  else if bool_decide (key ∈ Object_prototype_functions) then InheritedData true
  else NotInherited.

(** The function-valued properties of [Array.prototype] (ECMAScript 2023). *)
Definition Array_prototype_functions : list string :=
  ["at"; "concat"; "copyWithin"; "entries"; "every"; "fill"; "filter"; "find";
   "findIndex"; "findLast"; "findLastIndex"; "flat"; "flatMap"; "forEach";
   "includes"; "indexOf"; "join"; "keys"; "lastIndexOf"; "map"; "pop"; "push";
   "reduce"; "reduceRight"; "reverse"; "shift"; "slice"; "some"; "sort";
   "splice"; "toLocaleString"; "toReversed"; "toSorted"; "toSpliced";
   "toString"; "unshift"; "values"; "with"; "constructor"].

(** The own property [key] of a parsed JSON object. *)
Fixpoint json_object_get (key : string) (l : list (string * json)) : option json :=
  match l with
  | [] => None
  | (k, v) :: rest =>
      if bool_decide (k = key) then Some v else json_object_get key rest
  end.

(** The own property [key] of a parsed JSON array: its [length] or the
    element at the index that [key] writes in decimal. *)
Definition json_array_get (key : string) (l : list json) : option json :=
  if bool_decide (key = "length") then Some (JNum (Z.of_nat (length l)))
  else head (omap id (imap (λ i v, if bool_decide (pretty i = key)
                                    then Some v else None) l)).

(** The lookup of [key] on the prototype chain of an object whose
    prototype is [Object.prototype] ([None]) or was set to the JSON value
    [v] ([Some v]): [null], an object or an array. *)
Definition json_inherited (proto : option json) (key : string) : inherited :=
  match proto with
  | Some JNull => NotInherited
  | Some (JObj l) =>
      match json_object_get key l with
      | Some v => InheritedData (truthy v)
      | None => Object_prototype_prop key
      end
  | Some (JArr l) =>
      match json_array_get key l with
      | Some v => InheritedData (truthy v)
      | None =>
          if bool_decide (key ∈ Array_prototype_functions) then InheritedData true
          else Object_prototype_prop key
      end
  | Some (JBool _) | Some (JNum _) | Some (JStr _) | None =>
      Object_prototype_prop key
  end.

(** ** The interfaces *)

Inductive Runtime : Type := node | python.

(** [interface MCPServer] and [interface MCPServerConfig]: the two
    declarations describe the same JSON shape and differ in which fields
    they mark optional; every field is optional here. *)
Record MCPServer : Type := {
  runtime : option Runtime;
  command : option string;
  args : option (list string);
  env : option (gmap string string)
}.

(** The own property [key] of a server entry, as the truthiness of its
    value: a runtime, an array and an object are truthy, a command is
    truthy unless it is the empty string. *)
Definition entry_prop (e : MCPServer) (key : string) : option bool :=
  if bool_decide (key = "runtime") then (λ _, true) <$> runtime e
  else if bool_decide (key = "command") then
    (λ s, negb (String.eqb s "")) <$> command e
  else if bool_decide (key = "args") then (λ _, true) <$> args e
  else if bool_decide (key = "env") then (λ _, true) <$> env e
  else None.

(** The lookup of [key] on the prototype chain of a server map whose
    prototype is [Object.prototype] ([None]) or was set to the server entry
    [e] ([Some e]). *)
Definition servers_inherited (proto : option MCPServer) (key : string)
  : inherited :=
  match proto with
  | Some e =>
      match entry_prop e key with
      | Some b => InheritedData b
      | None => Object_prototype_prop key
      end
  | None => Object_prototype_prop key
  end.

(** [interface MCPConfig] / [interface ClaudeConfig]. [mcpServers] holds
    the own properties of the server map and [others] the own properties of
    the index signature, that is the keys other than ["mcpServers"].
    [mcpServers_proto] and [config_proto] are the prototypes of the server
    map and of the configuration object when an assignment to [__proto__]
    has replaced them, [None] standing for [Object.prototype]. *)
Record MCPConfig : Type := {
  mcpServers : option (gmap string MCPServer);
  others : gmap string json;
  mcpServers_proto : option MCPServer;
  config_proto : option json
}.

(** Modelled from the spec: [interface Package] of [types/package.ts],
    which is not among the sources at hand; the spec describes the record
    the package registry supplies as [Package{name, runtime}]. *)
Record Package : Type := {
  name : string;
  pkg_runtime : Runtime
}.

(** [x || {}] for an object-typed [x]. *)
Definition or_empty {A : Type} (o : option (gmap string A)) : gmap string A :=
  match o with
  | Some m => m
  | None => ∅
  end.

(** The literal [{ mcpServers: {} }]. *)
Definition empty_config : MCPConfig :=
  {| mcpServers := Some ∅; others := ∅;
     mcpServers_proto := None; config_proto := None |}.

(** What [JSON.parse(JSON.stringify(cfg))] gives: the own properties, on
    objects with the prototypes every parsed object has. *)
Definition json_view (cfg : MCPConfig) : MCPConfig :=
  {| mcpServers := mcpServers cfg; others := others cfg;
     mcpServers_proto := None; config_proto := None |}.

(** [{ ...cfg, mcpServers: servers }], where [servers] is an object with
    the own properties [m] and the prototype [servers_proto], or
    [undefined]: a new object with the own properties of [cfg]. *)
Definition spread_with_mcpServers (cfg : MCPConfig)
    (m : option (gmap string MCPServer)) (servers_proto : option MCPServer)
  : MCPConfig :=
  {| mcpServers := m; others := others cfg;
     mcpServers_proto := servers_proto; config_proto := None |}.

(** [cfg.mcpServers = {}]. *)
Definition reset_mcpServers (cfg : MCPConfig) : MCPConfig :=
  {| mcpServers := Some ∅; others := others cfg;
     mcpServers_proto := None; config_proto := config_proto cfg |}.

(** [delete cfg.mcpServers]. *)
Definition delete_mcpServers (cfg : MCPConfig) : MCPConfig :=
  {| mcpServers := None; others := others cfg;
     mcpServers_proto := None; config_proto := config_proto cfg |}.

(** [ToBoolean(cfg[key])] for a key of the index signature. *)
Definition other_truthy (key : string) (cfg : MCPConfig) : bool :=
  match others cfg !! key with
  | Some v => truthy v
  | None => truthy_inherited (json_inherited (config_proto cfg) key)
  end.

(** [cfg[key] = v] for a key of the index signature. An own property is
    updated; a name that reaches the accessor [Object.prototype.__proto__]
    goes to its setter, which replaces the prototype when [v] is an object,
    an array or [null] and does nothing otherwise; any other name becomes an
    own property. *)
Definition set_other (key : string) (v : json) (cfg : MCPConfig) : MCPConfig :=
  let store :=
    {| mcpServers := mcpServers cfg; others := <[key := v]> (others cfg);
       mcpServers_proto := mcpServers_proto cfg;
       config_proto := config_proto cfg |} in
  match others cfg !! key, json_inherited (config_proto cfg) key with
  | None, InheritedAccessor =>
      match v with
      | JNull | JArr _ | JObj _ =>
          {| mcpServers := mcpServers cfg; others := others cfg;
             mcpServers_proto := mcpServers_proto cfg;
             config_proto := Some v |}
      | JBool _ | JNum _ | JStr _ => cfg
      end
  | _, _ => store
  end.

(** [packageName.replace(/\//g, '-')]. *)
Fixpoint replace_slashes (s : string) : string :=
  match s with
  | EmptyString => EmptyString
  | String c rest =>
      String (if Ascii.eqb c "/"%char then "-"%char else c) (replace_slashes rest)
  end.

(** [String.prototype.trim]: the white space and line terminators of
    ECMAScript, in their UTF-8 encodings, are removed from both ends. *)
Fixpoint bytes (l : list nat) : string :=
  match l with
  | [] => EmptyString
  | n :: rest => String (Ascii.ascii_of_nat n) (bytes rest)
  end.

Definition white_space : list string :=
  [bytes [9]; bytes [10]; bytes [11]; bytes [12]; bytes [13]; bytes [32];
   bytes [194; 160]; bytes [225; 154; 128];
   bytes [226; 128; 128]; bytes [226; 128; 129]; bytes [226; 128; 130];
   bytes [226; 128; 131]; bytes [226; 128; 132]; bytes [226; 128; 133];
   bytes [226; 128; 134]; bytes [226; 128; 135]; bytes [226; 128; 136];
   bytes [226; 128; 137]; bytes [226; 128; 138];
   bytes [226; 128; 168]; bytes [226; 128; 169]; bytes [226; 128; 175];
   bytes [226; 129; 159]; bytes [227; 128; 128]; bytes [239; 187; 191]].

(** [s] without the prefix [p], when it starts with it. *)
Fixpoint strip_prefix (p s : string) : option string :=
  match p, s with
  | EmptyString, _ => Some s
  | String a p', String b s' =>
      if Ascii.eqb a b then strip_prefix p' s' else None
  | String _ _, EmptyString => None
  end.

(** [s] without the first of the strings [ps] it starts with. *)
Fixpoint strip_one (ps : list string) (s : string) : option string :=
  match ps with
  | [] => None
  | p :: rest =>
      match strip_prefix p s with
      | Some s' => Some s'
      | None => strip_one rest s
      end
  end.

Fixpoint strip_all (fuel : nat) (ps : list string) (s : string) : string :=
  match fuel with
  | O => s
  | S fuel' =>
      match strip_one ps s with
      | Some s' => strip_all fuel' ps s'
      | None => s
      end
  end.

Definition trim_start (s : string) : string :=
  strip_all (String.length s) white_space s.

Definition trim_end (s : string) : string :=
  String.rev (strip_all (String.length s) (String.rev <$> white_space)
                (String.rev s)).

Definition trim (s : string) : string := trim_end (trim_start s).

(** [String.prototype.toLowerCase] follows the Unicode case mappings, which
    are not represented: the method is a parameter of what uses it. On a
    string of ASCII characters it lowers the letters [A] to [Z], which is
    [ascii_toLowerCase]. *)
Definition is_upper (c : ascii) : bool :=
  (65 <=? Ascii.nat_of_ascii c)%nat && (Ascii.nat_of_ascii c <=? 90)%nat.

Definition lower_ascii (c : ascii) : ascii :=
  if is_upper c then Ascii.ascii_of_nat (Ascii.nat_of_ascii c + 32) else c.

Fixpoint ascii_toLowerCase (s : string) : string :=
  match s with
  | EmptyString => EmptyString
  | String c rest => String (lower_ascii c) (ascii_toLowerCase rest)
  end.

(** Every character of [s] is an ASCII character. *)
Fixpoint ascii_only (s : string) : bool :=
  match s with
  | EmptyString => true
  | String c rest => (Ascii.nat_of_ascii c <? 128)%nat && ascii_only rest
  end.

(** A lower-casing method agrees with [String.prototype.toLowerCase] on
    ASCII strings. *)
Definition lowers_ascii (toLowerCase : string → string) : Prop :=
  ∀ s : string, ascii_only s = true → toLowerCase s = ascii_toLowerCase s.

(** [key.replace(/_/g, '-')]. *)
Fixpoint replace_underscores (s : string) : string :=
  match s with
  | EmptyString => EmptyString
  | String c rest =>
      String (if Ascii.eqb c "_"%char then "-"%char else c) (replace_underscores rest)
  end.
(** ** The file system and the effects *)

Inductive host : Type := Claude | AmazonQ.

(** What is at a host's configuration path: the containing directory may
    be missing, the file may be missing, its content may fail to be read
    or parsed, or it parses to a configuration object. *)
Inductive file_state : Type :=
  | NoDir
  | NoFile
  | Unparseable
  | Holds (c : MCPConfig).

Inductive event : Type :=
  | ConsoleLog (msg : string)
  | ConsoleError (msg : string)
  | Mkdir (h : host)
  | WriteFile (h : host).

(** The state of the machine as one module sees it: the files at the two
    paths that module resolves, whether each can be written, and what the
    launcher lookup answers. The two modules resolve the same Amazon Q
    path; they resolve the same Claude path on macOS and on Windows with
    [APPDATA] set, and different ones elsewhere (see the properties of the
    paths below). So a world describes what both modules see on such a
    machine only, and no property below feeds what one module wrote to the
    other module. *)
Record world : Type := {
  claudeFile : file_state;
  amazonQFile : file_state;
  claudeWritable : bool;
  amazonQWritable : bool;
  whichUvx : option string;
  trace : list event
}.

Definition file (h : host) (w : world) : file_state :=
  match h with
  | Claude => claudeFile w
  | AmazonQ => amazonQFile w
  end.

Definition writable (h : host) (w : world) : bool :=
  match h with
  | Claude => claudeWritable w
  | AmazonQ => amazonQWritable w
  end.

Definition set_file (h : host) (s : file_state) (w : world) : world :=
  match h with
  | Claude =>
      {| claudeFile := s; amazonQFile := amazonQFile w;
         claudeWritable := claudeWritable w; amazonQWritable := amazonQWritable w;
         whichUvx := whichUvx w; trace := trace w |}
  | AmazonQ =>
      {| claudeFile := claudeFile w; amazonQFile := s;
         claudeWritable := claudeWritable w; amazonQWritable := amazonQWritable w;
         whichUvx := whichUvx w; trace := trace w |}
  end.

Definition emit (e : event) (w : world) : world :=
  {| claudeFile := claudeFile w; amazonQFile := amazonQFile w;
     claudeWritable := claudeWritable w; amazonQWritable := amazonQWritable w;
     whichUvx := whichUvx w; trace := trace w ++ [e] |}.

(** The state of the two host files, which is what the operations are
    compared on. *)
Definition files (w : world) : file_state * file_state :=
  (claudeFile w, amazonQFile w).

Inductive exn : Type :=
  | SyntaxError
  | ENOENT (h : host)
  | EACCES (h : host)
  | ExecError.

Inductive result (A : Type) : Type :=
  | Ok (a : A)
  | Throw (e : exn).
Arguments Ok {A} a.
Arguments Throw {A} e.

Definition M (A : Type) : Type := world → result A * world.

#[global] Instance M_ret : MRet M := λ A a w, (Ok a, w).

#[global] Instance M_bind : MBind M := λ A B f m w,
  match m w with
  | (Ok a, w') => f a w'
  | (Throw e, w') => (Throw e, w')
  end.

Definition throw {A : Type} (e : exn) : M A := λ w, (Throw e, w).

(** [try { m } catch (error) { handler error }]: the effects [m] had before
    it threw are kept. *)
Definition try_catch {A : Type} (m : M A) (handler : exn → M A) : M A := λ w,
  match m w with
  | (Ok a, w') => (Ok a, w')
  | (Throw e, w') => handler e w'
  end.

Definition when (b : bool) (m : M unit) : M unit :=
  if b then m else mret tt.

Definition console_log (msg : string) : M unit := λ w,
  (Ok tt, emit (ConsoleLog msg) w).

Definition console_error (msg : string) : M unit := λ w,
  (Ok tt, emit (ConsoleError msg) w).

(** [fs.existsSync(path)]. *)
Definition existsSync (h : host) : M bool := λ w,
  (Ok match file h w with
      | NoDir | NoFile => false
      | Unparseable | Holds _ => true
      end, w).

(** [fs.existsSync(path.dirname(path))]. *)
Definition existsSync_dir (h : host) : M bool := λ w,
  (Ok match file h w with
      | NoDir => false
      | _ => true
      end, w).

(** [fs.mkdirSync(dir, { recursive: true })]. *)
Definition mkdirSync (h : host) : M unit := λ w,
  if writable h w then
    (Ok tt, emit (Mkdir h)
              (set_file h match file h w with NoDir => NoFile | s => s end w))
  else (Throw (EACCES h), w).

(** [JSON.parse(fs.readFileSync(path, 'utf8'))]: the objects a parse
    builds have the prototypes of object literals. *)
Definition parse_file (h : host) : M MCPConfig := λ w,
  match file h w with
  | NoDir | NoFile => (Throw (ENOENT h), w)
  | Unparseable => (Throw SyntaxError, w)
  | Holds c => (Ok (json_view c), w)
  end.

(** [fs.writeFileSync(path, JSON.stringify(c, null, 2))]: the file is
    replaced as a whole, and parses back to the own properties of [c]. *)
Definition writeFileSync (h : host) (c : MCPConfig) : M unit := λ w,
  if writable h w then
    match file h w with
    | NoDir => (Throw (ENOENT h), w)
    | _ => (Ok tt, emit (WriteFile h) (set_file h (Holds (json_view c)) w))
    end
  else (Throw (EACCES h), w).

(** [await execAsync('which uvx')], giving [stdout]. *)
Definition exec_which_uvx : M string := λ w,
  match whichUvx w with
  | Some stdout => (Ok stdout, w)
  | None => (Throw ExecError, w)
  end.

(** ** Reading and updating [config.mcpServers]

    Every caller applies these to a configuration whose [mcpServers] is an
    object (see [mergeConfigs_mcpServers] below for the merged
    configuration). *)

(** The own property [serverName] of [config.mcpServers]. *)
Definition get_server (serverName : string) (cfg : MCPConfig) : option MCPServer :=
  or_empty (mcpServers cfg) !! serverName.

(** [ToBoolean(config.mcpServers[serverName])]: an own entry is an object;
    otherwise the read finds what the map inherits. *)
Definition server_truthy (serverName : string) (cfg : MCPConfig) : bool :=
  match or_empty (mcpServers cfg) !! serverName with
  | Some _ => true
  | None => truthy_inherited (servers_inherited (mcpServers_proto cfg) serverName)
  end.

(** [config.mcpServers[serverName] = entry]. An own property is updated; a
    name that reaches the accessor [Object.prototype.__proto__] goes to its
    setter, which makes [entry] the prototype of the map; any other name
    becomes an own property. *)
Definition set_server (serverName : string) (entry : MCPServer) (cfg : MCPConfig)
  : MCPConfig :=
  match or_empty (mcpServers cfg) !! serverName,
        servers_inherited (mcpServers_proto cfg) serverName with
  | None, InheritedAccessor =>
      {| mcpServers := mcpServers cfg; others := others cfg;
         mcpServers_proto := Some entry; config_proto := config_proto cfg |}
  | _, _ =>
      {| mcpServers := Some (<[serverName := entry]> (or_empty (mcpServers cfg)));
         others := others cfg;
         mcpServers_proto := mcpServers_proto cfg;
         config_proto := config_proto cfg |}
  end.

(** [delete config.mcpServers[serverName]]. *)
Definition delete_server (serverName : string) (cfg : MCPConfig) : MCPConfig :=
  {| mcpServers := Some (delete serverName (or_empty (mcpServers cfg)));
     others := others cfg;
     mcpServers_proto := mcpServers_proto cfg;
     config_proto := config_proto cfg |}.

(** [serverName in (config.mcpServers || {})]. *)
Definition in_mcpServers (serverName : string) (cfg : MCPConfig) : bool :=
  match mcpServers cfg with
  | Some m =>
      match m !! serverName with
      | Some _ => true
      | None => is_inherited (servers_inherited (mcpServers_proto cfg) serverName)
      end
  | None => is_inherited (Object_prototype_prop serverName)
  end.

(** ** The loops of [readMergedConfigs]

    The four [Object.keys(...).forEach] loops are written the same way in
    both variants of the module. Each of them treats its keys one by one,
    and what it does for a key does not depend on the keys treated before
    it, so the order in which the keys come plays no part. *)

(** [Object.keys(claudeConfig).forEach(key => { if (key !== 'mcpServers')
    mergedConfig[key] = claudeConfig[key]; })] *)
Definition copy_primary_others (claudeConfig mergedConfig : MCPConfig) : MCPConfig :=
  map_fold (λ key v merged,
      if bool_decide (key ≠ "mcpServers") then set_other key v merged else merged)
    mergedConfig (others claudeConfig).

(** [Object.keys(amazonQConfig).forEach(key => { if (key !== 'mcpServers'
    && !mergedConfig[key]) mergedConfig[key] = amazonQConfig[key]; })] *)
Definition copy_secondary_others (amazonQConfig mergedConfig : MCPConfig) : MCPConfig :=
  map_fold (λ key v merged,
      if bool_decide (key ≠ "mcpServers") && negb (other_truthy key merged)
      then set_other key v merged else merged)
    mergedConfig (others amazonQConfig).

(** [Object.keys(claudeConfig.mcpServers).forEach(serverName => {
    mergedConfig.mcpServers[serverName] = claudeConfig.mcpServers[serverName]; })] *)
Definition copy_primary_servers (claudeServers : gmap string MCPServer)
    (mergedConfig : MCPConfig) : MCPConfig :=
  map_fold (λ serverName entry merged, set_server serverName entry merged)
    mergedConfig claudeServers.

(** [Object.keys(amazonQConfig.mcpServers).forEach(serverName => {
    if (!mergedConfig.mcpServers[serverName])
      mergedConfig.mcpServers[serverName] = amazonQConfig.mcpServers[serverName]; })] *)
Definition copy_secondary_servers (amazonQServers : gmap string MCPServer)
    (mergedConfig : MCPConfig) : MCPConfig :=
  map_fold (λ serverName entry merged,
      if negb (server_truthy serverName merged)
      then set_server serverName entry merged else merged)
    mergedConfig amazonQServers.

Definition not_installed_msg (packageName : string) : string :=
  "Package " +:+ packageName +:+ " is not installed.".

(** ** The process environment and paths

    A path is the sequence of its components: [path.join(base, 'a', 'b')]
    is [base ++ ["a"; "b"]], the home directory and the values of the
    environment variables being given by their components. An unset
    variable and an empty one are both falsy under [||]. *)

(** [linux] stands for every platform other than the two the code names. *)
Inductive platform : Type := win32 | darwin | linux.

Record process : Type := {
  process_platform : platform;
  homedir : list string;
  env_APPDATA : option (list string);
  env_XDG_CONFIG_HOME : option (list string)
}.

(** [process.env.X || fallback]. *)
Definition env_or (v : option (list string)) (fallback : list string)
  : list string :=
  match v with
  | Some (c :: cs) => c :: cs
  | Some [] | None => fallback
  end.

Definition path_join (base : list string) (parts : list string) : list string :=
  (base ++ parts)%list.

(** ** The preferences file

    [interface MCPPreferences] and the state of the file at
    [preferencesPath], with the effects of the two functions that use it. *)

Record MCPPreferences : Type := {
  allowAnalytics : option bool
}.

Inductive prefs_state : Type :=
  | PrefsNoDir
  | PrefsNoFile
  | PrefsUnparseable
  | PrefsHold (p : MCPPreferences).

Inductive prefs_event : Type :=
  | PrefsConsoleError (msg : string)
  | PrefsMkdir
  | PrefsWriteFile.

Record prefs_world : Type := {
  prefsFile : prefs_state;
  prefsWritable : bool;
  prefs_trace : list prefs_event
}.

Inductive prefs_exn : Type :=
  | PrefsSyntaxError
  | PrefsENOENT
  | PrefsEACCES.

Inductive outcome (A : Type) : Type :=
  | Returned (a : A)
  | Raised (e : prefs_exn).
Arguments Returned {A} a.
Arguments Raised {A} e.

Definition P (A : Type) : Type := prefs_world → outcome A * prefs_world.

#[global] Instance P_ret : MRet P := λ A a w, (Returned a, w).

#[global] Instance P_bind : MBind P := λ A B f m w,
  match m w with
  | (Returned a, w') => f a w'
  | (Raised e, w') => (Raised e, w')
  end.

Definition prefs_throw {A : Type} (e : prefs_exn) : P A := λ w, (Raised e, w).

Definition prefs_try_catch {A : Type} (m : P A) (handler : prefs_exn → P A)
  : P A := λ w,
  match m w with
  | (Returned a, w') => (Returned a, w')
  | (Raised e, w') => handler e w'
  end.

Definition prefs_emit (e : prefs_event) (w : prefs_world) : prefs_world :=
  {| prefsFile := prefsFile w; prefsWritable := prefsWritable w;
     prefs_trace := (prefs_trace w ++ [e])%list |}.

Definition prefs_set_file (s : prefs_state) (w : prefs_world) : prefs_world :=
  {| prefsFile := s; prefsWritable := prefsWritable w;
     prefs_trace := prefs_trace w |}.

Definition prefs_console_error (msg : string) : P unit := λ w,
  (Returned tt, prefs_emit (PrefsConsoleError msg) w).

(** [fs.existsSync(this.preferencesPath)]. *)
Definition prefs_existsSync : P bool := λ w,
  (Returned match prefsFile w with
            | PrefsNoDir | PrefsNoFile => false
            | PrefsUnparseable | PrefsHold _ => true
            end, w).

(** [fs.existsSync(path.dirname(this.preferencesPath))]. *)
Definition prefs_existsSync_dir : P bool := λ w,
  (Returned match prefsFile w with
            | PrefsNoDir => false
            | _ => true
            end, w).

(** [fs.mkdirSync(prefsDir, { recursive: true })]. *)
Definition prefs_mkdirSync : P unit := λ w,
  if prefsWritable w then
    (Returned tt,
     prefs_emit PrefsMkdir
       (prefs_set_file
          match prefsFile w with PrefsNoDir => PrefsNoFile | s => s end w))
  else (Raised PrefsEACCES, w).

(** [JSON.parse(fs.readFileSync(this.preferencesPath, 'utf8'))]. *)
Definition prefs_parse_file : P MCPPreferences := λ w,
  match prefsFile w with
  | PrefsNoDir | PrefsNoFile => (Raised PrefsENOENT, w)
  | PrefsUnparseable => (Raised PrefsSyntaxError, w)
  | PrefsHold p => (Returned p, w)
  end.

(** [fs.writeFileSync(this.preferencesPath, JSON.stringify(prefs, null, 2))]. *)
Definition prefs_writeFileSync (p : MCPPreferences) : P unit := λ w,
  if prefsWritable w then
    match prefsFile w with
    | PrefsNoDir => (Raised PrefsENOENT, w)
    | _ => (Returned tt, prefs_emit PrefsWriteFile (prefs_set_file (PrefsHold p) w))
    end
  else (Raised PrefsEACCES, w).

(** ** [class ConfigManager] of [src/utils/config-manager.ts] *)

Module ConfigManager.

Definition readClaudeConfig : M MCPConfig :=
  try_catch
    (ex ← existsSync Claude;
     if negb ex then mret empty_config
     else
       config ← parse_file Claude;
       mret (spread_with_mcpServers config (Some (or_empty (mcpServers config)))
               (mcpServers_proto config)))
    (λ error, console_error "Error reading Claude config:";; mret empty_config).

Definition readAmazonQConfig : M MCPConfig :=
  try_catch
    (ex ← existsSync AmazonQ;
     if negb ex then mret empty_config
     else
       config ← parse_file AmazonQ;
       mret (spread_with_mcpServers config (Some (or_empty (mcpServers config)))
               (mcpServers_proto config)))
    (λ error, console_error "Error reading Amazon Q config:";; mret empty_config).

(** The body of [readMergedConfigs] after the two reads. *)
Definition mergeConfigs (claudeConfig amazonQConfig : MCPConfig) : MCPConfig :=
  let mergedConfig := empty_config in
  let mergedConfig := copy_primary_others claudeConfig mergedConfig in
  let mergedConfig := copy_secondary_others amazonQConfig mergedConfig in
  let claudeServers := or_empty (mcpServers claudeConfig) in
  let amazonQServers := or_empty (mcpServers amazonQConfig) in
  let mergedConfig := copy_primary_servers claudeServers mergedConfig in
  let mergedConfig := copy_secondary_servers amazonQServers mergedConfig in
  mergedConfig.

Definition readMergedConfigs : M MCPConfig :=
  claudeConfig ← readClaudeConfig;
  amazonQConfig ← readAmazonQConfig;
  mret (mergeConfigs claudeConfig amazonQConfig).

Definition readConfig : M MCPConfig := readMergedConfigs.

(** [let existing = { mcpServers: {} }; if (fs.existsSync(path)) { try {
    const parsed = JSON.parse(...); existing = { ...parsed, mcpServers: {} };
    } catch (e) { existing = { mcpServers: {} }; } }] *)
Definition existingConfig (h : host) : M MCPConfig :=
  ex ← existsSync h;
  if (ex : bool) then
    try_catch
      (parsed ← parse_file h; mret (spread_with_mcpServers parsed (Some ∅) None))
      (λ e, mret empty_config)
  else mret empty_config.

(** One of the two halves of [writeConfig]; the source writes it out once
    for each host. *)
Definition writeHost (h : host) (msg : string) (config : MCPConfig) : M unit :=
  dir ← existsSync_dir h;
  when (negb dir) (mkdirSync h);;
  existing ← existingConfig h;
  let hostConfig :=
    spread_with_mcpServers existing (mcpServers config) (mcpServers_proto config) in
  writeFileSync h hostConfig;;
  console_log msg.

Definition writeConfig (config : MCPConfig) : M unit :=
  try_catch
    (writeHost Claude "Updated Claude MCP configuration" config;;
     writeHost AmazonQ "Updated Amazon Q MCP configuration" config)
    (λ error, console_error "Error writing config:";; throw error).

Definition isPackageInstalled (packageName : string) : M bool :=
  config ← readMergedConfigs;
  let serverName := replace_slashes packageName in
  mret (in_mcpServers serverName config || in_mcpServers packageName config).

Definition installPackage (pkg : Package) (envVars : option (gmap string string))
  : M unit :=
  config ← readMergedConfigs;
  let serverName := replace_slashes (name pkg) in
  let serverConfig :=
    match pkg_runtime pkg with
    | node =>
        {| runtime := Some (pkg_runtime pkg); env := envVars;
           command := Some "npx"; args := Some ["-y"; name pkg] |}
    | python =>
        {| runtime := Some (pkg_runtime pkg); env := envVars;
           command := Some "uvx"; args := Some [name pkg] |}
    end in
  writeConfig (set_server serverName serverConfig config).

Definition uninstallPackage (packageName : string) : M unit :=
  config ← readMergedConfigs;
  let serverName := replace_slashes packageName in
  if negb (truthy_obj (mcpServers config)) then
    console_log (not_installed_msg packageName)
  else if server_truthy serverName config then
    writeConfig (delete_server serverName config)
  else if server_truthy packageName config then
    writeConfig (delete_server packageName config)
  else
    console_log (not_installed_msg packageName).

(** The static initialisation block: the three paths for the platform. *)
Definition claudeConfigPath (proc : process) : list string :=
  match process_platform proc with
  | win32 =>
      let appData :=
        env_or (env_APPDATA proc) (path_join (homedir proc) ["AppData"; "Roaming"]) in
      path_join appData ["Claude"; "claude_desktop_config.json"]
  | darwin =>
      path_join (homedir proc)
        ["Library"; "Application Support"; "Claude"; "claude_desktop_config.json"]
  | linux =>
      let configDir :=
        env_or (env_XDG_CONFIG_HOME proc) (path_join (homedir proc) [".config"]) in
      path_join configDir ["Claude"; "claude_desktop_config.json"]
  end.

Definition amazonQConfigPath (proc : process) : list string :=
  match process_platform proc with
  | win32 => path_join (homedir proc) [".aws"; "amazonq"; "mcp.json"]
  | darwin => path_join (homedir proc) [".aws"; "amazonq"; "mcp.json"]
  | linux => path_join (homedir proc) [".aws"; "amazonq"; "mcp.json"]
  end.

Definition preferencesPath (proc : process) : list string :=
  match process_platform proc with
  | win32 =>
      let appData :=
        env_or (env_APPDATA proc) (path_join (homedir proc) ["AppData"; "Roaming"]) in
      path_join appData ["mcp-get"; "preferences.json"]
  | darwin => path_join (homedir proc) [".mcp-get"; "preferences.json"]
  | linux => path_join (homedir proc) [".mcp-get"; "preferences.json"]
  end.

Definition getConfigPath (proc : process) : list string := claudeConfigPath proc.

Definition getAmazonQConfigPath (proc : process) : list string :=
  amazonQConfigPath proc.

Definition readPreferences : P MCPPreferences :=
  prefs_try_catch
    (ex ← prefs_existsSync;
     if negb ex then mret {| allowAnalytics := None |}
     else prefs_parse_file)
    (λ error, mret {| allowAnalytics := None |}).

Definition writePreferences (prefs : MCPPreferences) : P unit :=
  prefs_try_catch
    (dir ← prefs_existsSync_dir;
     (if negb dir then prefs_mkdirSync else mret tt);;
     prefs_writeFileSync prefs)
    (λ error, prefs_console_error "Error writing preferences:";; prefs_throw error).

End ConfigManager.

(** ** The free-function variant of the module *)

Module Config.

Definition readClaudeConfig : M MCPConfig :=
  ex ← existsSync Claude;
  if negb ex then mret empty_config
  else
    try_catch
      (config ← parse_file Claude;
       mret (spread_with_mcpServers config (Some (or_empty (mcpServers config)))
               (mcpServers_proto config)))
      (λ error, console_error "Error reading Claude config:";; mret empty_config).

Definition readAmazonQConfig : M MCPConfig :=
  ex ← existsSync AmazonQ;
  if negb ex then mret empty_config
  else
    try_catch
      (config ← parse_file AmazonQ;
       mret (spread_with_mcpServers config (Some (or_empty (mcpServers config)))
               (mcpServers_proto config)))
      (λ error, console_error "Error reading Amazon Q config:";; mret empty_config).

(** The body of [readMergedConfigs] after the two reads. *)
Definition mergeConfigs (claudeConfig amazonQConfig : MCPConfig) : MCPConfig :=
  let mergedConfig := empty_config in
  let mergedConfig := copy_primary_others claudeConfig mergedConfig in
  let mergedConfig := copy_secondary_others amazonQConfig mergedConfig in
  let claudeServers := or_empty (mcpServers claudeConfig) in
  let amazonQServers := or_empty (mcpServers amazonQConfig) in
  let mergedConfig :=
    if negb (truthy_obj (mcpServers mergedConfig))
    then reset_mcpServers mergedConfig else mergedConfig in
  let mergedConfig := copy_primary_servers claudeServers mergedConfig in
  let mergedConfig := copy_secondary_servers amazonQServers mergedConfig in
  mergedConfig.

Definition readMergedConfigs : M MCPConfig :=
  claudeConfig ← readClaudeConfig;
  amazonQConfig ← readAmazonQConfig;
  mret (mergeConfigs claudeConfig amazonQConfig).

Definition readConfig : M MCPConfig := readMergedConfigs.

(** [let existing = { mcpServers: {} }; if (fs.existsSync(path)) { try {
    existing = JSON.parse(...); delete existing.mcpServers; } catch (e) {
    existing = { mcpServers: {} }; } }] *)
Definition existingConfig (h : host) : M MCPConfig :=
  ex ← existsSync h;
  if (ex : bool) then
    try_catch
      (existing ← parse_file h; mret (delete_mcpServers existing))
      (λ e, mret empty_config)
  else mret empty_config.

Definition writeConfig (config : MCPConfig) : M unit :=
  dir ← existsSync_dir Claude;
  when (negb dir) (mkdirSync Claude);;
  existingClaudeConfig ← existingConfig Claude;
  let config :=
    if negb (truthy_obj (mcpServers config))
    then reset_mcpServers config else config in
  let claudeConfig :=
    spread_with_mcpServers existingClaudeConfig (mcpServers config)
      (mcpServers_proto config) in
  writeFileSync Claude claudeConfig;;
  dir ← existsSync_dir AmazonQ;
  when (negb dir) (mkdirSync AmazonQ);;
  existingAmazonQConfig ← existingConfig AmazonQ;
  let amazonQConfig :=
    spread_with_mcpServers existingAmazonQConfig (mcpServers config)
      (mcpServers_proto config) in
  writeFileSync AmazonQ amazonQConfig.

Definition getConfigPath (proc : process) : list string :=
  match process_platform proc with
  | win32 =>
      path_join (env_or (env_APPDATA proc) [])
        ["Claude"; "claude_desktop_config.json"]
  | _ =>
      let configDir :=
        path_join (homedir proc) ["Library"; "Application Support"; "Claude"] in
      path_join configDir ["claude_desktop_config.json"]
  end.

Definition getAmazonQConfigPath (proc : process) : list string :=
  match process_platform proc with
  | win32 => path_join (homedir proc) [".aws"; "amazonq"; "mcp.json"]
  | _ => path_join (homedir proc) [".aws"; "amazonq"; "mcp.json"]
  end.

Section WithRegistry.

(** [loadPackage] of [./package-registry.js], the package registry
    lookup. *)
Variable loadPackage : string → option Package.

Definition getPackageRuntime (packageName : string) : Runtime :=
  match loadPackage packageName with
  | Some pkg => pkg_runtime pkg
  | None => node
  end.

Definition installMCPServer (packageName : string)
    (envVars : option (gmap string string)) (rt : option Runtime) : M unit :=
  config ← readMergedConfigs;
  let serverName := replace_slashes packageName in
  let effectiveRuntime :=
    match rt with
    | Some r => r
    | None => getPackageRuntime packageName
    end in
  let config :=
    if negb (truthy_obj (mcpServers config))
    then reset_mcpServers config else config in
  cmd ← match effectiveRuntime with
        | python =>
            try_catch (stdout ← exec_which_uvx; mret (trim stdout))
                      (λ error, mret "uvx")
        | node => mret "npx"
        end;
  let serverConfig :=
    {| runtime := Some effectiveRuntime;
       env := envVars;
       command := Some cmd;
       args := Some match effectiveRuntime with
                    | python => [packageName]
                    | node => ["-y"; packageName]
                    end |} in
  writeConfig (set_server serverName serverConfig config).

End WithRegistry.

Section WithCaseMapping.

(** [String.prototype.toLowerCase]. *)
Variable toLowerCase : string → string.

(** [envVarsToArgs], on [Object.entries(envVars)]: the entries of the
    mapping in its iteration order. *)
Definition envVarsToArgs (envVars : list (string * string)) : list string :=
  concat (map (λ '(key, value),
                 let argName := replace_underscores (toLowerCase key) in
                 ["--" +:+ argName; value])
              envVars).

End WithCaseMapping.

End Config.

(** ** Views of the file system used to state the properties *)

(** The extra top-level keys a host file holds: those of the parsed object,
    none when there is nothing to parse. *)
Definition file_others (s : file_state) : gmap string json :=
  match s with
  | Holds c => others c
  | _ => ∅
  end.

(** The [mcpServers] map of a host file, [{}] when there is none. *)
Definition file_servers (s : file_state) : gmap string MCPServer :=
  match s with
  | Holds c => or_empty (mcpServers c)
  | _ => ∅
  end.

(** What a reader returns for a file in state [s]. *)
Definition host_view (s : file_state) : MCPConfig :=
  match s with
  | Holds c =>
      {| mcpServers := Some (or_empty (mcpServers c)); others := others c;
         mcpServers_proto := None; config_proto := None |}
  | _ => empty_config
  end.

(** The world after a reader ran on a file in state [s]. *)
Definition read_log (msg : string) (s : file_state) (w : world) : world :=
  match s with
  | Unparseable => emit (ConsoleError msg) w
  | _ => w
  end.

Definition after_reads (w : world) : world :=
  read_log "Error reading Amazon Q config:" (amazonQFile w)
    (read_log "Error reading Claude config:" (claudeFile w) w).

(** The file a writer leaves at a path that was in state [s]. *)
Definition written (m : option (gmap string MCPServer)) (s : file_state)
  : file_state :=
  Holds {| mcpServers := m; others := file_others s;
           mcpServers_proto := None; config_proto := None |}.

(** The outcome of writing the map [m] to both hosts, as the exception
    raised (if any) and the resulting pair of files: the Claude file is
    written first, and a host that cannot be written stops the operation. *)
Definition write_outcome (m : option (gmap string MCPServer)) (w : world)
  : result unit * (file_state * file_state) :=
  if claudeWritable w then
    if amazonQWritable w then
      (Ok tt, (written m (claudeFile w), written m (amazonQFile w)))
    else (Throw (EACCES AmazonQ), (written m (claudeFile w), amazonQFile w))
  else (Throw (EACCES Claude), files w).

(** The events that change the file system. *)
Definition is_write (e : event) : bool :=
  match e with
  | Mkdir _ | WriteFile _ => true
  | ConsoleLog _ | ConsoleError _ => false
  end.

(** The file-system events of one successful host write. *)
Definition write_events (s : file_state) (h : host) : list event :=
  match s with
  | NoDir => [Mkdir h; WriteFile h]
  | _ => [WriteFile h]
  end.

(** The part of the world no operation changes. *)
Definition same_env (w w' : world) : Prop :=
  claudeWritable w' = claudeWritable w ∧
  amazonQWritable w' = amazonQWritable w ∧
  whichUvx w' = whichUvx w.

(** The entry [installPackage] stores. *)
Definition CM_serverConfig (pkg : Package) (envVars : option (gmap string string))
  : MCPServer :=
  match pkg_runtime pkg with
  | node =>
      {| runtime := Some node; env := envVars;
         command := Some "npx"; args := Some ["-y"; name pkg] |}
  | python =>
      {| runtime := Some python; env := envVars;
         command := Some "uvx"; args := Some [name pkg] |}
  end.

(** The entry [installMCPServer] stores for the effective runtime [r], in a
    world where the launcher lookup answers [whichUvx w]. *)
Definition Config_serverConfig (packageName : string)
    (envVars : option (gmap string string)) (r : Runtime) (w : world) : MCPServer :=
  match r with
  | node =>
      {| runtime := Some node; env := envVars;
         command := Some "npx"; args := Some ["-y"; packageName] |}
  | python =>
      {| runtime := Some python; env := envVars;
         command := Some match whichUvx w with
                         | Some stdout => trim stdout
                         | None => "uvx"
                         end;
         args := Some [packageName] |}
  end.

(** The configuration both variants of the merge compute from the two
    host files, and the own properties of its [mcpServers]. *)
Definition merged_config (w : world) : MCPConfig :=
  ConfigManager.mergeConfigs (host_view (claudeFile w)) (host_view (amazonQFile w)).

Definition merged_servers (w : world) : gmap string MCPServer :=
  or_empty (mcpServers (merged_config w)).

(** The own servers of the merge: every server of the primary host but
    one named [__proto__], and the servers of the secondary host under the
    names that the primary lacks and that read falsy on the merged map,
    whose prototype a primary server named [__proto__] replaces. *)
Definition merged_entry (P A : gmap string MCPServer) (k : string)
  : option MCPServer :=
  match delete "__proto__" P !! k with
  | Some e => Some e
  | None =>
      match A !! k with
      | Some e' =>
          if truthy_inherited (servers_inherited (P !! "__proto__") k)
          then None else Some e'
      | None => None
      end
  end.

(** The own properties of a server map with own properties [m] after the
    assignment [map[serverName] = entry], when [m] has no own property
    [__proto__]. *)
Definition assigned (serverName : string) (entry : MCPServer)
    (m : gmap string MCPServer) : gmap string MCPServer :=
  if bool_decide (serverName = "__proto__") then m else <[serverName := entry]> m.

(** Uninstall removed the entry under [key] from the merged configuration
    [merged] read in world [w] and wrote the result to both hosts. *)
Definition uninstalled (key : string) (merged : MCPConfig) (w w' : world) : Prop :=
  files w' =
    (written (Some (delete key (or_empty (mcpServers merged)))) (claudeFile w),
     written (Some (delete key (or_empty (mcpServers merged)))) (amazonQFile w)) ∧
  List.filter is_write (trace w') =
    (List.filter is_write (trace w) ++
     write_events (claudeFile w) Claude ++ write_events (amazonQFile w) AmazonQ)%list.

(** Uninstall reported that the package is not installed and changed
    nothing on the file system. *)
Definition reported_not_installed (packageName : string) (w w' : world) : Prop :=
  files w' = files w ∧
  List.filter is_write (trace w') = List.filter is_write (trace w) ∧
  last (trace w') = Some (ConsoleLog (not_installed_msg packageName)).


(** The world [w] once the Amazon Q side has become writable. *)
Definition unlock_amazonQ (w : world) : world :=
  {| claudeFile := claudeFile w; amazonQFile := amazonQFile w;
     claudeWritable := claudeWritable w; amazonQWritable := true;
     whichUvx := whichUvx w; trace := trace w |}.

(** A reader of host [h] is defensive when it returns on every file
    state, leaves the files alone, answers [{ mcpServers: {} }] for a
    missing file, logs [msg] and answers [{ mcpServers: {} }] for a file
    it cannot parse, and otherwise answers the parsed object with
    [mcpServers] defaulted to [{}]. *)
Definition defensive_reader (h : host) (msg : string) (reader : M MCPConfig)
  : Prop :=
  ∀ w : world, ∃ (cfg : MCPConfig) (w' : world),
    reader w = (Ok cfg, w') ∧ files w' = files w ∧
    match file h w with
    | NoDir | NoFile => cfg = empty_config ∧ trace w' = trace w
    | Unparseable =>
        cfg = empty_config ∧ trace w' = (trace w ++ [ConsoleError msg])%list
    | Holds c =>
        mcpServers cfg = Some (or_empty (mcpServers c)) ∧
        others cfg = others c ∧ trace w' = trace w
    end.

(** ** Sample configurations *)

(** A configuration as a file holds it. *)
Definition plain_config (m : gmap string MCPServer) (o : gmap string json)
  : MCPConfig :=
  {| mcpServers := Some m; others := o;
     mcpServers_proto := None; config_proto := None |}.

Definition sample_entry (pkg : string) : MCPServer :=
  {| runtime := Some node; command := Some "npx";
     args := Some ["-y"; pkg]; env := Some ∅ |}.

(** A Claude file with one server and a host-owned key; no Amazon Q
    directory yet. *)
Definition sample_world : world :=
  {| claudeFile :=
       Holds (plain_config {[ "weather" := sample_entry "weather" ]}
                {[ "theme" := JStr "dark" ]});
     amazonQFile := NoDir;
     claudeWritable := true; amazonQWritable := true;
     whichUvx := None; trace := [] |}.

(** The package [foo/bar] registered twice: under its dash form in the
    Claude file and under its raw name in the Amazon Q file. *)
Definition legacy_world : world :=
  {| claudeFile :=
       Holds (plain_config {[ "foo-bar" := sample_entry "foo/bar" ]}
                {[ "theme" := JStr "dark" ]});
     amazonQFile :=
       Holds (plain_config {[ "foo/bar" := sample_entry "foo/bar" ]}
                {[ "profile" := JStr "default" ]});
     claudeWritable := true; amazonQWritable := true;
     whichUvx := None; trace := [] |}.

(** The merge of the two files of [legacy_world]. *)
Definition legacy_merged : MCPConfig :=
  plain_config {[ "foo-bar" := sample_entry "foo/bar";
                  "foo/bar" := sample_entry "foo/bar" ]}
    {[ "theme" := JStr "dark"; "profile" := JStr "default" ]}.

(** The package [foo/bar] registered under its raw name only. *)
Definition slash_only_world : world :=
  {| claudeFile := NoFile;
     amazonQFile :=
       Holds (plain_config {[ "foo/bar" := sample_entry "foo/bar" ]}
                {[ "profile" := JStr "default" ]});
     claudeWritable := true; amazonQWritable := true;
     whichUvx := None; trace := [] |}.

Definition slash_only_merged : MCPConfig :=
  plain_config {[ "foo/bar" := sample_entry "foo/bar" ]}
    {[ "profile" := JStr "default" ]}.

Definition sample_merged : MCPConfig :=
  plain_config {[ "weather" := sample_entry "weather" ]}
    {[ "theme" := JStr "dark" ]}.

(** [legacy_world] with the Claude file read-only. *)
Definition claude_locked_world : world :=
  {| claudeFile := claudeFile legacy_world;
     amazonQFile := amazonQFile legacy_world;
     claudeWritable := false; amazonQWritable := true;
     whichUvx := None; trace := [] |}.

(** [sample_world] with the Amazon Q side read-only. *)
Definition amazonQ_locked_world : world :=
  {| claudeFile := claudeFile sample_world;
     amazonQFile := amazonQFile sample_world;
     claudeWritable := true; amazonQWritable := false;
     whichUvx := None; trace := [] |}.

(** [sample_world] on a machine where the launcher lookup answers a path
    followed by a line break. *)
Definition uvx_world : world :=
  {| claudeFile := claudeFile sample_world;
     amazonQFile := amazonQFile sample_world;
     claudeWritable := true; amazonQWritable := true;
     whichUvx := Some ("/usr/local/bin/uvx" +:+ String (Ascii.ascii_of_nat 10) "");
     trace := [] |}.

(** Two empty host directories. *)
Definition fresh_world : world :=
  {| claudeFile := NoFile; amazonQFile := NoFile;
     claudeWritable := true; amazonQWritable := true;
     whichUvx := None; trace := [] |}.

(** A secondary host whose only server is named [constructor]. *)
Definition constructor_only : MCPConfig :=
  plain_config {[ "constructor" := sample_entry "constructor" ]} ∅.

(** A preferences file that is there and can be replaced. *)
Definition sample_prefs_world : prefs_world :=
  {| prefsFile := PrefsHold {| allowAnalytics := Some true |};
     prefsWritable := true; prefs_trace := [] |}.

(** No preferences directory yet, and no permission to create it. *)
Definition locked_prefs_world : prefs_world :=
  {| prefsFile := PrefsNoDir; prefsWritable := false; prefs_trace := [] |}.

(** A Linux machine without [XDG_CONFIG_HOME], and a Windows machine with
    [APPDATA] set. *)
Definition linux_process : process :=
  {| process_platform := linux; homedir := ["home"; "ada"];
     env_APPDATA := None; env_XDG_CONFIG_HOME := None |}.

Definition windows_process : process :=
  {| process_platform := win32; homedir := ["C:"; "Users"; "ada"];
     env_APPDATA := Some ["C:"; "Users"; "ada"; "AppData"; "Roaming"];
     env_XDG_CONFIG_HOME := None |}.


Definition telemetry_on : MCPConfig :=
  plain_config ∅ {[ "telemetry" := JBool true ]}.

(** Case analysis on the two file states and the two permissions, after
    which a writer runs by computation. *)
Ltac run_writer w :=
  destruct w as [[] [] [] [] ? ?]; simpl;
  unfold same_env; simpl;
  rewrite ?List.filter_app; simpl; rewrite ?app_nil_r, <- ?app_assoc; simpl.

(** ** Inherited names *)

Section Inherited.

Implicit Types (k n : string) (e : MCPServer).

Lemma Object_prototype_accessor k :
  Object_prototype_prop k = InheritedAccessor ↔ k = "__proto__".
Proof.
  unfold Object_prototype_prop. repeat case_bool_decide; split; congruence.
Qed.

Lemma entry_prop_proto e : entry_prop e "__proto__" = None.
Proof. reflexivity. Qed.

Lemma entry_prop_name e k :
  is_Some (entry_prop e k) → k ∈ ["runtime"; "command"; "args"; "env"].
Proof.
  unfold entry_prop. repeat case_bool_decide; subst; intros Hsome;
    first [by repeat constructor | by destruct Hsome].
Qed.

Lemma servers_inherited_accessor (p : option MCPServer) k :
  servers_inherited p k = InheritedAccessor ↔ k = "__proto__".
Proof.
  unfold servers_inherited. destruct p as [e|]; [|apply Object_prototype_accessor].
  destruct (entry_prop e k) as [b|] eqn:Hk.
  - split; [done|]. intros ->. by rewrite entry_prop_proto in Hk.
  - apply Object_prototype_accessor.
Qed.

Lemma servers_inherited_proto (p : option MCPServer) :
  servers_inherited p "__proto__" = InheritedAccessor.
Proof. by apply servers_inherited_accessor. Qed.

(** The names objects inherit from [Object.prototype]. *)
Lemma Object_prototype_names k :
  Object_prototype_prop k ≠ NotInherited →
  k ∈ "__proto__" :: Object_prototype_functions.
Proof.
  unfold Object_prototype_prop. repeat case_bool_decide; try done; intros _.
  - subst. by left.
  - by right.
Qed.

Lemma chars_replace_slashes n :
  "/"%char ∈ list_ascii_of_string n →
  "-"%char ∈ list_ascii_of_string (replace_slashes n).
Proof.
  induction n as [|c s IH]; simpl; [by intros ?%elem_of_nil|].
  intros [<-|H]%elem_of_cons.
  - simpl. apply elem_of_cons. by left.
  - apply elem_of_cons. right. by apply IH.
Qed.

Lemma replace_slashes_id n :
  "/"%char ∉ list_ascii_of_string n → replace_slashes n = n.
Proof.
  induction n as [|c s IH]; simpl; [done|].
  intros [Hc Hs]%not_elem_of_cons.
  destruct (Ascii.eqb_spec c "/") as [->|_]; [done|]. by rewrite IH.
Qed.

(** No inherited name and no field of a server entry contains [-] or [/]. *)
Lemma inherited_name_chars (p : option MCPServer) k :
  servers_inherited p k ≠ NotInherited →
  ("-"%char ∉ list_ascii_of_string k) ∧ ("/"%char ∉ list_ascii_of_string k).
Proof.
  intros H.
  assert (k ∈ ["runtime"; "command"; "args"; "env"] ∨
          k ∈ "__proto__" :: Object_prototype_functions) as [Hk|Hk].
  { unfold servers_inherited in H. destruct p as [e|].
    - destruct (entry_prop e k) as [b|] eqn:He.
      + left. apply (entry_prop_name e). by rewrite He.
      + right. by apply Object_prototype_names.
    - right. by apply Object_prototype_names. }
  - repeat (apply elem_of_cons in Hk as [->|Hk];
            [split; vm_compute; intros Hin;
             repeat (apply elem_of_cons in Hin as [Hin|Hin]; [discriminate Hin|]);
             by apply elem_of_nil in Hin|]).
    by apply elem_of_nil in Hk.
  - repeat (apply elem_of_cons in Hk as [->|Hk];
            [split; vm_compute; intros Hin;
             repeat (apply elem_of_cons in Hin as [Hin|Hin]; [discriminate Hin|]);
             by apply elem_of_nil in Hin|]).
    by apply elem_of_nil in Hk.
Qed.

Lemma not_inherited_slash (p : option MCPServer) n :
  "/"%char ∈ list_ascii_of_string n →
  servers_inherited p n = NotInherited ∧
  servers_inherited p (replace_slashes n) = NotInherited.
Proof.
  intros Hn. split.
  - destruct (servers_inherited p n) eqn:H; [done| |];
      (destruct (inherited_name_chars p n) as [_ Hs]; [by rewrite H|done]).
  - apply chars_replace_slashes in Hn.
    destruct (servers_inherited p (replace_slashes n)) eqn:H; [done| |];
      (destruct (inherited_name_chars p (replace_slashes n)) as [Hs _];
       [by rewrite H|done]).
Qed.

End Inherited.

(** ** The loops, as equations on lookups *)

Section Loops.

Implicit Types (c a m : MCPConfig) (k n : string).

Lemma set_other_servers k v m :
  mcpServers (set_other k v m) = mcpServers m ∧
  mcpServers_proto (set_other k v m) = mcpServers_proto m.
Proof.
  unfold set_other.
  destruct (others m !! k), (json_inherited (config_proto m) k), v; done.
Qed.

Lemma copy_primary_others_servers c m :
  mcpServers (copy_primary_others c m) = mcpServers m ∧
  mcpServers_proto (copy_primary_others c m) = mcpServers_proto m.
Proof.
  unfold copy_primary_others.
  apply (map_fold_weak_ind (λ r _,
    mcpServers r = mcpServers m ∧ mcpServers_proto r = mcpServers_proto m));
    [done|].
  intros i x mm r _ [IH1 IH2]. case_bool_decide; [|done].
  destruct (set_other_servers i x r) as [-> ->]. done.
Qed.

Lemma copy_secondary_others_servers a m :
  mcpServers (copy_secondary_others a m) = mcpServers m ∧
  mcpServers_proto (copy_secondary_others a m) = mcpServers_proto m.
Proof.
  unfold copy_secondary_others.
  apply (map_fold_weak_ind (λ r _,
    mcpServers r = mcpServers m ∧ mcpServers_proto r = mcpServers_proto m));
    [done|].
  intros i x mm r _ [IH1 IH2]. destruct (_ && _); [|done].
  destruct (set_other_servers i x r) as [-> ->]. done.
Qed.



(** The third loop stores every server of the primary host, except that
    a server named [__proto__] becomes the prototype of the merged map. *)
Lemma copy_primary_servers_eq (cs : gmap string MCPServer) m :
  mcpServers m = Some ∅ →
  mcpServers_proto m = None →
  copy_primary_servers cs m =
    {| mcpServers := Some (delete "__proto__" cs); others := others m;
       mcpServers_proto := cs !! "__proto__"; config_proto := config_proto m |}.
Proof.
  intros Hs Hp. unfold copy_primary_servers.
  apply (map_fold_weak_ind (λ r (mm : gmap string MCPServer),
    r = {| mcpServers := Some (delete "__proto__" mm); others := others m;
           mcpServers_proto := mm !! "__proto__";
           config_proto := config_proto m |})).
  - rewrite delete_empty, lookup_empty. destruct m; simpl in *; by subst.
  - intros i x mm r Hi ->. unfold set_server; simpl.
    destruct (decide (i = "__proto__")) as [->|Hne].
    + rewrite lookup_delete_eq, servers_inherited_proto, lookup_insert_eq.
      by rewrite delete_insert_eq.
    + rewrite lookup_delete_ne, Hi by done.
      rewrite lookup_insert_ne, delete_insert_ne by done.
      destruct (servers_inherited (mm !! "__proto__") i) eqn:Hinh; try done.
      by apply servers_inherited_accessor in Hinh.
Qed.

(** The fourth loop stores a server of the secondary host exactly when the
    merged map has no own entry of that name and inherits nothing truthy
    under it. It never changes the prototype of the merged map. *)
Lemma copy_secondary_servers_spec (qs s : gmap string MCPServer) m :
  mcpServers m = Some s →
  ∃ own : gmap string MCPServer,
    copy_secondary_servers qs m =
      {| mcpServers := Some own; others := others m;
         mcpServers_proto := mcpServers_proto m;
         config_proto := config_proto m |} ∧
    ∀ k, own !! k =
           match s !! k with
           | Some e => Some e
           | None =>
               match qs !! k with
               | Some e' =>
                   if truthy_inherited (servers_inherited (mcpServers_proto m) k)
                   then None else Some e'
               | None => None
               end
           end.
Proof.
  intros Hs. unfold copy_secondary_servers.
  apply (map_fold_weak_ind (λ r (mm : gmap string MCPServer),
    ∃ own : gmap string MCPServer,
      r = {| mcpServers := Some own; others := others m;
             mcpServers_proto := mcpServers_proto m;
             config_proto := config_proto m |} ∧
      ∀ k, own !! k =
             match s !! k with
             | Some e => Some e
             | None =>
                 match mm !! k with
                 | Some e' =>
                     if truthy_inherited (servers_inherited (mcpServers_proto m) k)
                     then None else Some e'
                 | None => None
                 end
             end)).
  - exists s. split; [destruct m; simpl in *; by subst|].
    intros k. rewrite lookup_empty. by destruct (s !! k).
  - intros i x mm r Hi (own & -> & Hown).
    unfold server_truthy, set_server; simpl. rewrite (Hown i), Hi.
    destruct (s !! i) as [e|] eqn:Hsi; simpl.
    + exists own. split; [done|]. intros k. rewrite Hown.
      destruct (decide (i = k)) as [<-|Hik]; [by rewrite Hsi|].
      by rewrite lookup_insert_ne.
    + destruct (truthy_inherited (servers_inherited (mcpServers_proto m) i))
        eqn:Hb; simpl.
      * exists own. split; [done|]. intros k. rewrite Hown.
        destruct (decide (i = k)) as [<-|Hik].
        -- by rewrite Hsi, Hi, lookup_insert_eq, Hb.
        -- by rewrite lookup_insert_ne.
      * exists (<[i := x]> own). split.
        -- destruct (servers_inherited (mcpServers_proto m) i); done.
        -- intros k. destruct (decide (i = k)) as [<-|Hik].
           ++ by rewrite !lookup_insert_eq, Hsi, Hb.
           ++ rewrite !lookup_insert_ne by done. apply Hown.
Qed.

End Loops.

(** ** The merge *)

Section Merge.

Implicit Types (c a : MCPConfig) (k n : string).

Lemma others_stage_servers c a :
  mcpServers (copy_secondary_others a (copy_primary_others c empty_config)) = Some ∅ ∧
  mcpServers_proto (copy_secondary_others a (copy_primary_others c empty_config))
    = None.
Proof.
  destruct (copy_secondary_others_servers a (copy_primary_others c empty_config))
    as [-> ->].
  by destruct (copy_primary_others_servers c empty_config) as [-> ->].
Qed.

Lemma mergeConfigs_same c a :
  Config.mergeConfigs c a = ConfigManager.mergeConfigs c a.
Proof.
  unfold Config.mergeConfigs, ConfigManager.mergeConfigs.
  by destruct (others_stage_servers c a) as [-> _].
Qed.

Lemma mergeConfigs_spec c a :
  ∃ own : gmap string MCPServer,
    mcpServers (ConfigManager.mergeConfigs c a) = Some own ∧
    mcpServers_proto (ConfigManager.mergeConfigs c a) =
      or_empty (mcpServers c) !! "__proto__" ∧
    others (ConfigManager.mergeConfigs c a) =
      others (copy_secondary_others a (copy_primary_others c empty_config)) ∧
    config_proto (ConfigManager.mergeConfigs c a) =
      config_proto (copy_secondary_others a (copy_primary_others c empty_config)) ∧
    ∀ k, own !! k =
           merged_entry (or_empty (mcpServers c)) (or_empty (mcpServers a)) k.
Proof.
  unfold ConfigManager.mergeConfigs.
  destruct (others_stage_servers c a) as [Hs Hp].
  rewrite (copy_primary_servers_eq _ _ Hs Hp).
  destruct (copy_secondary_servers_spec (or_empty (mcpServers a))
              (delete "__proto__" (or_empty (mcpServers c)))
              {| mcpServers := Some (delete "__proto__" (or_empty (mcpServers c)));
                 others := others (copy_secondary_others a
                                     (copy_primary_others c empty_config));
                 mcpServers_proto := or_empty (mcpServers c) !! "__proto__";
                 config_proto := config_proto (copy_secondary_others a
                                     (copy_primary_others c empty_config)) |}
              eq_refl) as (own & -> & Hown).
  exists own. simpl. repeat split; try done.
Qed.

Lemma mergeConfigs_mcpServers c a :
  mcpServers (ConfigManager.mergeConfigs c a) =
    Some (or_empty (mcpServers (ConfigManager.mergeConfigs c a))).
Proof. destruct (mergeConfigs_spec c a) as (own & -> & _). done. Qed.

Lemma mergeConfigs_lookup c a k :
  or_empty (mcpServers (ConfigManager.mergeConfigs c a)) !! k =
    merged_entry (or_empty (mcpServers c)) (or_empty (mcpServers a)) k.
Proof.
  destruct (mergeConfigs_spec c a) as (own & -> & _ & _ & _ & Hown). apply Hown.
Qed.

Lemma mergeConfigs_proto c a :
  mcpServers_proto (ConfigManager.mergeConfigs c a) =
    or_empty (mcpServers c) !! "__proto__".
Proof. by destruct (mergeConfigs_spec c a) as (own & _ & -> & _). Qed.

(** The merged map never has an own property [__proto__]. *)
Lemma mergeConfigs_no_own_proto c a :
  or_empty (mcpServers (ConfigManager.mergeConfigs c a)) !! "__proto__" = None.
Proof.
  rewrite mergeConfigs_lookup. unfold merged_entry.
  rewrite lookup_delete_eq, servers_inherited_proto.
  by destruct (or_empty (mcpServers a) !! "__proto__").
Qed.

(** The merge of two hosts that hold the same map [m], a map without a
    server named [__proto__], is [m]. *)
Lemma mergeConfigs_synced c a (m : gmap string MCPServer) :
  mcpServers c = Some m → mcpServers a = Some m → m !! "__proto__" = None →
  mcpServers (ConfigManager.mergeConfigs c a) = Some m ∧
  mcpServers_proto (ConfigManager.mergeConfigs c a) = None.
Proof.
  intros Hc Ha Hm. split.
  - rewrite mergeConfigs_mcpServers. f_equal. apply map_eq. intros k.
    rewrite mergeConfigs_lookup, Hc, Ha. unfold merged_entry. simpl.
    rewrite Hm. destruct (decide (k = "__proto__")) as [->|Hk].
    + by rewrite lookup_delete_eq, Hm.
    + rewrite lookup_delete_ne by done. by destruct (m !! k).
  - by rewrite mergeConfigs_proto, Hc.
Qed.


Lemma host_view_mcpServers s :
  mcpServers (host_view s) = Some (file_servers s).
Proof. by destruct s. Qed.

Lemma host_view_others s : others (host_view s) = file_others s.
Proof. by destruct s. Qed.

Lemma merged_config_mcpServers w :
  mcpServers (merged_config w) = Some (merged_servers w).
Proof. apply mergeConfigs_mcpServers. Qed.

Lemma merged_servers_lookup w k :
  merged_servers w !! k =
    merged_entry (file_servers (claudeFile w)) (file_servers (amazonQFile w)) k.
Proof.
  unfold merged_servers, merged_config.
  by rewrite mergeConfigs_lookup, !host_view_mcpServers.
Qed.

Lemma merged_config_proto w :
  mcpServers_proto (merged_config w) = file_servers (claudeFile w) !! "__proto__".
Proof.
  unfold merged_config. by rewrite mergeConfigs_proto, host_view_mcpServers.
Qed.

Lemma merged_servers_no_own_proto w : merged_servers w !! "__proto__" = None.
Proof. apply mergeConfigs_no_own_proto. Qed.

End Merge.

(** ** Running the readers and the writers *)

Section Runs.

Implicit Types (w : world) (config : MCPConfig).

Lemma files_read_log msg s w : files (read_log msg s w) = files w.
Proof. by destruct s. Qed.

Lemma files_after_reads w : files (after_reads w) = files w.
Proof. unfold after_reads. by rewrite !files_read_log. Qed.

Lemma claudeFile_after_reads w : claudeFile (after_reads w) = claudeFile w.
Proof. by destruct w as [[] [] ? ? ? ?]. Qed.

Lemma amazonQFile_after_reads w : amazonQFile (after_reads w) = amazonQFile w.
Proof. by destruct w as [[] [] ? ? ? ?]. Qed.

Lemma claudeWritable_after_reads w :
  claudeWritable (after_reads w) = claudeWritable w.
Proof. by destruct w as [[] [] ? ? ? ?]. Qed.

Lemma amazonQWritable_after_reads w :
  amazonQWritable (after_reads w) = amazonQWritable w.
Proof. by destruct w as [[] [] ? ? ? ?]. Qed.

Lemma whichUvx_after_reads w : whichUvx (after_reads w) = whichUvx w.
Proof. by destruct w as [[] [] ? ? ? ?]. Qed.

Lemma merged_config_after_reads w : merged_config (after_reads w) = merged_config w.
Proof.
  unfold merged_config. by rewrite claudeFile_after_reads, amazonQFile_after_reads.
Qed.

Lemma CM_readClaudeConfig_run w :
  ConfigManager.readClaudeConfig w =
    (Ok (host_view (claudeFile w)),
     read_log "Error reading Claude config:" (claudeFile w) w).
Proof. by destruct w as [[] ? ? ? ? ?]. Qed.

Lemma CM_readAmazonQConfig_run w :
  ConfigManager.readAmazonQConfig w =
    (Ok (host_view (amazonQFile w)),
     read_log "Error reading Amazon Q config:" (amazonQFile w) w).
Proof. by destruct w as [? [] ? ? ? ?]. Qed.

Lemma Config_readClaudeConfig_run w :
  Config.readClaudeConfig w =
    (Ok (host_view (claudeFile w)),
     read_log "Error reading Claude config:" (claudeFile w) w).
Proof. by destruct w as [[] ? ? ? ? ?]. Qed.

Lemma Config_readAmazonQConfig_run w :
  Config.readAmazonQConfig w =
    (Ok (host_view (amazonQFile w)),
     read_log "Error reading Amazon Q config:" (amazonQFile w) w).
Proof. by destruct w as [? [] ? ? ? ?]. Qed.

Lemma CM_readMergedConfigs_run w :
  ConfigManager.readMergedConfigs w = (Ok (merged_config w), after_reads w).
Proof.
  unfold ConfigManager.readMergedConfigs, mbind, M_bind.
  rewrite CM_readClaudeConfig_run, CM_readAmazonQConfig_run.
  by destruct w as [[] [] ? ? ? ?].
Qed.

Lemma Config_readMergedConfigs_run w :
  Config.readMergedConfigs w = (Ok (merged_config w), after_reads w).
Proof.
  unfold Config.readMergedConfigs, mbind, M_bind.
  rewrite Config_readClaudeConfig_run, Config_readAmazonQConfig_run.
  unfold mret, M_ret. rewrite mergeConfigs_same.
  by destruct w as [[] [] ? ? ? ?].
Qed.

Lemma same_env_after_reads w : same_env w (after_reads w).
Proof. by destruct w as [[] [] ? ? ? ?]. Qed.

Lemma same_env_trans w1 w2 w3 : same_env w1 w2 → same_env w2 w3 → same_env w1 w3.
Proof. unfold same_env. intros (-> & -> & ->) (-> & -> & ->). done. Qed.

Lemma is_write_after_reads w :
  List.filter is_write (trace (after_reads w)) = List.filter is_write (trace w).
Proof.
  destruct w as [[] [] ? ? ? tr]; simpl;
    rewrite ?List.filter_app; simpl; by rewrite ?app_nil_r.
Qed.

Lemma CM_writeConfig_run config w :
  ((ConfigManager.writeConfig config w).1,
   files (ConfigManager.writeConfig config w).2) =
    write_outcome (mcpServers config) w ∧
  same_env w (ConfigManager.writeConfig config w).2.
Proof. run_writer w; done. Qed.

Lemma Config_writeConfig_run config w :
  ((Config.writeConfig config w).1, files (Config.writeConfig config w).2) =
    write_outcome (Some (or_empty (mcpServers config))) w ∧
  same_env w (Config.writeConfig config w).2.
Proof. run_writer w; destruct config as [[] ? ? ?]; done. Qed.

Lemma CM_writeConfig_trace config w w' :
  ConfigManager.writeConfig config w = (Ok tt, w') →
  List.filter is_write (trace w') =
    (List.filter is_write (trace w) ++
     write_events (claudeFile w) Claude ++ write_events (amazonQFile w) AmazonQ)%list.
Proof.
  destruct w as [[] [] [] [] ? ?]; cbn; intros [= <-]; simpl;
    rewrite ?List.filter_app; simpl; by rewrite ?app_nil_r, <- ?app_assoc.
Qed.

Lemma Config_writeConfig_trace config w w' :
  Config.writeConfig config w = (Ok tt, w') →
  List.filter is_write (trace w') =
    (List.filter is_write (trace w) ++
     write_events (claudeFile w) Claude ++ write_events (amazonQFile w) AmazonQ)%list.
Proof.
  destruct w as [[] [] [] [] ? ?]; cbn; intros [= <-]; simpl;
    rewrite ?List.filter_app; simpl; by rewrite ?app_nil_r, <- ?app_assoc.
Qed.

Lemma write_outcome_ok m w r fs :
  write_outcome m w = (r, fs) → r = Ok tt →
  fs = (written m (claudeFile w), written m (amazonQFile w)).
Proof.
  unfold write_outcome.
  destruct (claudeWritable w), (amazonQWritable w); intros [= <- <-]; done.
Qed.

Lemma write_outcome_writable m w fs :
  write_outcome m w = (Ok tt, fs) →
  claudeWritable w = true ∧ amazonQWritable w = true.
Proof.
  unfold write_outcome.
  destruct (claudeWritable w), (amazonQWritable w); intros [= <-]; done.
Qed.

Lemma write_outcome_after_reads m w :
  write_outcome m (after_reads w) = write_outcome m w.
Proof.
  unfold write_outcome.
  by rewrite claudeWritable_after_reads, amazonQWritable_after_reads,
    claudeFile_after_reads, amazonQFile_after_reads, files_after_reads.
Qed.

Lemma CM_writeConfig_ok config w w' :
  ConfigManager.writeConfig config w = (Ok tt, w') →
  files w' = (written (mcpServers config) (claudeFile w),
              written (mcpServers config) (amazonQFile w)).
Proof.
  intros H. destruct (CM_writeConfig_run config w) as [Hrun _].
  rewrite H in Hrun. simpl in Hrun. symmetry in Hrun.
  by apply write_outcome_ok in Hrun.
Qed.

Lemma Config_writeConfig_ok config w w' :
  Config.writeConfig config w = (Ok tt, w') →
  files w' = (written (Some (or_empty (mcpServers config))) (claudeFile w),
              written (Some (or_empty (mcpServers config))) (amazonQFile w)).
Proof.
  intros H. destruct (Config_writeConfig_run config w) as [Hrun _].
  rewrite H in Hrun. simpl in Hrun. symmetry in Hrun.
  by apply write_outcome_ok in Hrun.
Qed.

Lemma files_inv w s t :
  files w = (s, t) → claudeFile w = s ∧ amazonQFile w = t.
Proof. by intros [= -> ->]. Qed.

(** After both files were written with the map [m], a map without a
    server named [__proto__], the merge reads [m] back on a map with the
    prototype of every object. *)
Lemma merged_servers_synced (m : gmap string MCPServer) w s t :
  files w = (written (Some m) s, written (Some m) t) →
  m !! "__proto__" = None →
  merged_servers w = m ∧ mcpServers_proto (merged_config w) = None.
Proof.
  intros [Hc Ha]%files_inv Hm. unfold merged_servers, merged_config.
  rewrite Hc, Ha.
  destruct (mergeConfigs_synced (host_view (written (Some m) s))
              (host_view (written (Some m) t)) m) as [-> ->]; done.
Qed.

End Runs.

(** ** Running install and uninstall *)

Section Operations.

Implicit Types (w : world) (config : MCPConfig) (packageName sn k : string).
Implicit Types (e : MCPServer) (m : gmap string MCPServer).

Lemma assigned_no_own_proto sn e m :
  m !! "__proto__" = None → assigned sn e m !! "__proto__" = None.
Proof.
  intros Hm. unfold assigned. case_bool_decide as Hsn; [done|].
  by rewrite lookup_insert_ne.
Qed.

Lemma assigned_idem sn e m : assigned sn e (assigned sn e m) = assigned sn e m.
Proof.
  unfold assigned. case_bool_decide; [done|]. apply insert_insert_eq.
Qed.


Lemma assigned_insert sn e m :
  sn ≠ "__proto__" → assigned sn e m = <[sn := e]> m.
Proof. intros Hsn. unfold assigned. by rewrite bool_decide_false. Qed.

(** The assignment [config.mcpServers[serverName] = entry] on a merged
    configuration. *)
Lemma set_server_merged sn e w :
  mcpServers (set_server sn e (merged_config w)) =
    Some (assigned sn e (merged_servers w)).
Proof.
  unfold set_server, assigned.
  change (or_empty (mcpServers (merged_config w))) with (merged_servers w).
  case_bool_decide as Hsn.
  - subst sn. rewrite merged_servers_no_own_proto, servers_inherited_proto.
    apply merged_config_mcpServers.
  - destruct (merged_servers w !! sn); [done|].
    destruct (servers_inherited _ sn) eqn:H; try done.
    by apply servers_inherited_accessor in H.
Qed.

Lemma server_truthy_own k e w :
  merged_servers w !! k = Some e → server_truthy k (merged_config w) = true.
Proof.
  intros H. unfold server_truthy.
  change (or_empty (mcpServers (merged_config w))) with (merged_servers w).
  by rewrite H.
Qed.

Lemma server_truthy_plain k w :
  mcpServers_proto (merged_config w) = None →
  Object_prototype_prop k = NotInherited →
  server_truthy k (merged_config w) = truthy_obj (merged_servers w !! k).
Proof.
  intros Hp Hk. unfold server_truthy.
  change (or_empty (mcpServers (merged_config w))) with (merged_servers w).
  rewrite Hp. simpl. rewrite Hk. by destruct (merged_servers w !! k).
Qed.

Lemma in_mcpServers_merged k w :
  in_mcpServers k (merged_config w) =
    match merged_servers w !! k with
    | Some _ => true
    | None => is_inherited (servers_inherited (mcpServers_proto (merged_config w)) k)
    end.
Proof. unfold in_mcpServers. by rewrite merged_config_mcpServers. Qed.

Lemma in_mcpServers_plain k w :
  mcpServers_proto (merged_config w) = None →
  Object_prototype_prop k = NotInherited →
  in_mcpServers k (merged_config w) = truthy_obj (merged_servers w !! k).
Proof.
  intros Hp Hk. rewrite in_mcpServers_merged, Hp. simpl. rewrite Hk.
  by destruct (merged_servers w !! k).
Qed.

(** The dash form of a name that is not inherited is not inherited. *)
Lemma replace_slashes_not_inherited packageName :
  Object_prototype_prop packageName = NotInherited →
  Object_prototype_prop (replace_slashes packageName) = NotInherited.
Proof.
  intros H.
  destruct (decide ("/"%char ∈ list_ascii_of_string packageName)) as [Hs|Hs].
  - by destruct (not_inherited_slash None packageName Hs) as [_ ?].
  - by rewrite replace_slashes_id.
Qed.

Lemma CM_installPackage_run pkg envVars w :
  ConfigManager.installPackage pkg envVars w =
    ConfigManager.writeConfig
      (set_server (replace_slashes (name pkg)) (CM_serverConfig pkg envVars)
         (merged_config w))
      (after_reads w).
Proof.
  unfold ConfigManager.installPackage, mbind, M_bind.
  rewrite CM_readMergedConfigs_run. unfold CM_serverConfig.
  by destruct (pkg_runtime pkg).
Qed.

Lemma CM_installPackage_outcome pkg envVars w :
  ((ConfigManager.installPackage pkg envVars w).1,
   files (ConfigManager.installPackage pkg envVars w).2) =
    write_outcome
      (Some (assigned (replace_slashes (name pkg)) (CM_serverConfig pkg envVars)
               (merged_servers w))) w ∧
  same_env w (ConfigManager.installPackage pkg envVars w).2.
Proof.
  rewrite CM_installPackage_run.
  destruct (CM_writeConfig_run
    (set_server (replace_slashes (name pkg)) (CM_serverConfig pkg envVars)
       (merged_config w)) (after_reads w)) as [-> Henv].
  split; [|by eapply same_env_trans; [apply same_env_after_reads|]].
  by rewrite write_outcome_after_reads, set_server_merged.
Qed.

Lemma Config_installMCPServer_run loadPackage packageName envVars r w :
  Config.installMCPServer loadPackage packageName envVars (Some r) w =
    Config.writeConfig
      (set_server (replace_slashes packageName)
         (Config_serverConfig packageName envVars r w) (merged_config w))
      (after_reads w).
Proof.
  unfold Config.installMCPServer, mbind, M_bind.
  rewrite Config_readMergedConfigs_run, merged_config_mcpServers. simpl.
  unfold Config_serverConfig. destruct r; [done|].
  unfold try_catch, exec_which_uvx, mbind, M_bind.
  rewrite whichUvx_after_reads. by destruct (whichUvx w).
Qed.

Lemma Config_installMCPServer_outcome loadPackage packageName envVars r w :
  ((Config.installMCPServer loadPackage packageName envVars (Some r) w).1,
   files (Config.installMCPServer loadPackage packageName envVars (Some r) w).2) =
    write_outcome
      (Some (assigned (replace_slashes packageName)
               (Config_serverConfig packageName envVars r w)
               (merged_servers w))) w ∧
  same_env w (Config.installMCPServer loadPackage packageName envVars (Some r) w).2.
Proof.
  rewrite Config_installMCPServer_run.
  destruct (Config_writeConfig_run
    (set_server (replace_slashes packageName)
       (Config_serverConfig packageName envVars r w) (merged_config w))
    (after_reads w)) as [-> Henv].
  split; [|by eapply same_env_trans; [apply same_env_after_reads|]].
  by rewrite write_outcome_after_reads, set_server_merged.
Qed.

Lemma Config_installMCPServer_registry loadPackage packageName envVars w :
  Config.installMCPServer loadPackage packageName envVars None w =
    Config.installMCPServer loadPackage packageName envVars
      (Some (Config.getPackageRuntime loadPackage packageName)) w.
Proof. reflexivity. Qed.


(** What a successful install leaves: both files hold the merged map with
    the entry assigned, and the merge of the two files is that map. *)
Lemma install_outcome_ok sn e w w1 (r : result unit) :
  (r, files w1) = write_outcome (Some (assigned sn e (merged_servers w))) w →
  r = Ok tt →
  files w1 = (written (Some (assigned sn e (merged_servers w))) (claudeFile w),
              written (Some (assigned sn e (merged_servers w))) (amazonQFile w)) ∧
  merged_servers w1 = assigned sn e (merged_servers w) ∧
  mcpServers_proto (merged_config w1) = None ∧
  claudeWritable w = true ∧ amazonQWritable w = true.
Proof.
  intros Hout ->. symmetry in Hout.
  pose proof (write_outcome_writable _ _ _ Hout) as [Hc Ha].
  apply write_outcome_ok in Hout; [|done].
  split; [done|].
  destruct (merged_servers_synced _ _ _ _ Hout) as [Hm Hp].
  { apply assigned_no_own_proto, merged_servers_no_own_proto. }
  done.
Qed.


(** Re-merging after a write that reached the Claude file alone gives the
    map that was written, when the Claude file held no server named
    [__proto__]. *)
Lemma merged_servers_claude_written sn e w w1 :
  file_servers (claudeFile w) !! "__proto__" = None →
  claudeFile w1 = written (Some (assigned sn e (merged_servers w))) (claudeFile w) →
  amazonQFile w1 = amazonQFile w →
  merged_servers w1 = assigned sn e (merged_servers w).
Proof.
  intros Hproto Hc Ha. apply map_eq. intros k.
  rewrite merged_servers_lookup, Hc, Ha. simpl. unfold merged_entry.
  pose proof (assigned_no_own_proto sn e _ (merged_servers_no_own_proto w)) as Hm.
  rewrite Hm. destruct (decide (k = "__proto__")) as [->|Hk].
  { rewrite lookup_delete_eq, Hm, servers_inherited_proto.
    by destruct (file_servers (amazonQFile w) !! "__proto__"). }
  rewrite lookup_delete_ne by done.
  destruct (assigned sn e (merged_servers w) !! k) as [x|] eqn:Hx; [done|].
  destruct (file_servers (amazonQFile w) !! k) as [e'|] eqn:He'; [|done].
  assert (merged_servers w !! k = None) as HM.
  { unfold assigned in Hx. case_bool_decide; [done|].
    apply lookup_insert_None in Hx as [? _]. done. }
  rewrite merged_servers_lookup in HM. unfold merged_entry in HM.
  rewrite lookup_delete_ne, He', Hproto in HM by done.
  destruct (file_servers (claudeFile w) !! k); [done|].
  by destruct (truthy_inherited (servers_inherited None k)).
Qed.

Lemma CM_isPackageInstalled_run packageName w :
  ConfigManager.isPackageInstalled packageName w =
    (Ok (in_mcpServers (replace_slashes packageName) (merged_config w)
         || in_mcpServers packageName (merged_config w)),
     after_reads w).
Proof.
  unfold ConfigManager.isPackageInstalled, mbind, M_bind.
  by rewrite CM_readMergedConfigs_run.
Qed.

Lemma CM_uninstallPackage_run packageName w :
  ConfigManager.uninstallPackage packageName w =
    if server_truthy (replace_slashes packageName) (merged_config w) then
      ConfigManager.writeConfig
        (delete_server (replace_slashes packageName) (merged_config w))
        (after_reads w)
    else if server_truthy packageName (merged_config w) then
      ConfigManager.writeConfig (delete_server packageName (merged_config w))
        (after_reads w)
    else console_log (not_installed_msg packageName) (after_reads w).
Proof.
  unfold ConfigManager.uninstallPackage, mbind, M_bind.
  rewrite CM_readMergedConfigs_run, merged_config_mcpServers. simpl.
  by repeat destruct (server_truthy _ _).
Qed.

Lemma CM_uninstall_writes key w w1 :
  ConfigManager.writeConfig (delete_server key (merged_config w)) (after_reads w)
    = (Ok tt, w1) →
  uninstalled key (merged_config w) w w1.
Proof.
  intros H. split.
  - apply CM_writeConfig_ok in H.
    by rewrite claudeFile_after_reads, amazonQFile_after_reads in H.
  - apply CM_writeConfig_trace in H.
    by rewrite is_write_after_reads, claudeFile_after_reads,
      amazonQFile_after_reads in H.
Qed.

(** After an uninstall wrote, the merge of the two files is the reduced
    map, on a map with the prototype of every object. *)
Lemma uninstalled_merged key w w1 :
  uninstalled key (merged_config w) w w1 →
  merged_servers w1 = delete key (merged_servers w) ∧
  mcpServers_proto (merged_config w1) = None.
Proof.
  intros [Hfiles _]. apply merged_servers_synced in Hfiles; [done|].
  apply lookup_delete_None. right. apply merged_servers_no_own_proto.
Qed.

Lemma merged_config_files w w' :
  files w' = files w → merged_config w' = merged_config w.
Proof. intros [= Hc Ha]. unfold merged_config. by rewrite Hc, Ha. Qed.



End Operations.

(** ** Names that read truthy on every server map *)

Section InheritedFunctions.

Implicit Types (w : world) (n : string).

Lemma servers_inherited_function (p : option MCPServer) n :
  n ∈ Object_prototype_functions →
  servers_inherited p n = InheritedData true ∧
  n ≠ "__proto__" ∧ replace_slashes n = n.
Proof.
  intros H. unfold Object_prototype_functions in H.
  repeat (apply elem_of_cons in H as [->|H];
          [by destruct p; vm_compute|]).
  by apply elem_of_nil in H.
Qed.

Lemma server_truthy_function n w :
  n ∈ Object_prototype_functions → server_truthy n (merged_config w) = true.
Proof.
  intros Hn. unfold server_truthy.
  destruct (or_empty (mcpServers (merged_config w)) !! n); [done|].
  by destruct (servers_inherited_function (mcpServers_proto (merged_config w)) n Hn)
    as [-> _].
Qed.

Lemma write_events_app_ne (tr : list event) s t :
  (tr ++ write_events s Claude ++ write_events t AmazonQ)%list ≠ tr.
Proof.
  intros H. apply (f_equal length) in H. rewrite !length_app in H.
  destruct s, t; simpl in H; lia.
Qed.

End InheritedFunctions.

(** * Properties *)

(** ** Writing *)

(** C1. Whenever [writeConfig] (either variant) returns normally on a
    configuration whose [mcpServers] is the map [m], both host files then
    parse to an object whose [mcpServers] is [m] and whose other top-level
    keys are exactly the ones the file held before the write. *)
Theorem writeConfig_syncs_both_hosts
    (config : MCPConfig) (m : gmap string MCPServer) (w w' : world) :
  mcpServers config = Some m →
  ConfigManager.writeConfig config w = (Ok tt, w') ∨
    Config.writeConfig config w = (Ok tt, w') →
  ∃ c q : MCPConfig,
    claudeFile w' = Holds c ∧ amazonQFile w' = Holds q ∧
    mcpServers c = Some m ∧ mcpServers q = Some m ∧
    others c = file_others (claudeFile w) ∧
    others q = file_others (amazonQFile w).
Proof.
  intros Hm [H|H].
  - apply CM_writeConfig_ok in H. rewrite Hm in H.
    apply files_inv in H as [Hc Hq]. rewrite Hc, Hq.
    eexists _, _. repeat split.
  - apply Config_writeConfig_ok in H. rewrite Hm in H.
    apply files_inv in H as [Hc Hq]. rewrite Hc, Hq.
    eexists _, _. repeat split.
Qed.

Lemma writeConfig_syncs_both_hosts_witness :
  ∃ c q : MCPConfig,
    claudeFile (ConfigManager.writeConfig telemetry_on sample_world).2 = Holds c ∧
    amazonQFile (ConfigManager.writeConfig telemetry_on sample_world).2 = Holds q ∧
    mcpServers c = Some ∅ ∧ mcpServers q = Some ∅ ∧
    others c = {[ "theme" := JStr "dark" ]} ∧ others q = ∅.
Proof.
  apply (writeConfig_syncs_both_hosts telemetry_on ∅ sample_world
           (ConfigManager.writeConfig telemetry_on sample_world).2).
  - reflexivity.
  - left. vm_compute. reflexivity.
Defined.

(** ** Merging *)

(** C2, where the code departs from the claim. The merge (either variant)
    drops a server that only the secondary host has when its name is one
    of the function-valued properties every object inherits from
    [Object.prototype], such as [constructor] or [toString]: the guard
    [!mergedConfig.mcpServers[serverName]] reads the inherited function
    under that name and takes the name for taken. *)
Theorem mergeConfigs_drops_inherited_name
    (claudeConfig amazonQConfig : MCPConfig) (n : string) :
  n ∈ Object_prototype_functions →
  get_server n claudeConfig = None →
  get_server n (ConfigManager.mergeConfigs claudeConfig amazonQConfig) = None ∧
  get_server n (Config.mergeConfigs claudeConfig amazonQConfig) = None.
Proof.
  intros Hn Hc. rewrite mergeConfigs_same. unfold get_server in *.
  rewrite mergeConfigs_lookup. unfold merged_entry.
  destruct (servers_inherited_function
              (or_empty (mcpServers claudeConfig) !! "__proto__") n Hn)
    as (-> & Hne & _).
  rewrite lookup_delete_ne, Hc by done. simpl.
  by destruct (or_empty (mcpServers amazonQConfig) !! n).
Qed.

Lemma mergeConfigs_drops_inherited_name_witness :
  get_server "constructor" constructor_only
    = Some (sample_entry "constructor") ∧
  (get_server "constructor"
     (ConfigManager.mergeConfigs empty_config constructor_only) = None ∧
   get_server "constructor"
     (Config.mergeConfigs empty_config constructor_only) = None).
Proof.
  split; [vm_compute; reflexivity|].
  apply (mergeConfigs_drops_inherited_name empty_config constructor_only
           "constructor").
  - apply elem_of_cons. left. reflexivity.
  - reflexivity.
Defined.




(** C9. The two variants of [readMergedConfigs] return the same merged
    configuration (and leave the same world) on every state of the two
    host files, and their merge steps agree on every pair of host
    configurations. *)
Theorem readMergedConfigs_variants_agree :
  (∀ w : world, Config.readMergedConfigs w = ConfigManager.readMergedConfigs w) ∧
  (∀ claudeConfig amazonQConfig : MCPConfig,
     Config.mergeConfigs claudeConfig amazonQConfig =
       ConfigManager.mergeConfigs claudeConfig amazonQConfig).
Proof.
  split.
  - intros w. by rewrite Config_readMergedConfigs_run, CM_readMergedConfigs_run.
  - apply mergeConfigs_same.
Qed.

(** ** Reading *)

(** C4. Each of the four readers returns on every file state without
    raising and without touching the files: [{ mcpServers: {} }] for a
    missing file; [{ mcpServers: {} }] after logging for a file that fails
    to parse; otherwise the parsed object with [mcpServers] defaulted to
    [{}] and the other top-level keys as parsed. *)
Theorem readers_are_defensive :
  defensive_reader Claude "Error reading Claude config:"
    ConfigManager.readClaudeConfig ∧
  defensive_reader AmazonQ "Error reading Amazon Q config:"
    ConfigManager.readAmazonQConfig ∧
  defensive_reader Claude "Error reading Claude config:"
    Config.readClaudeConfig ∧
  defensive_reader AmazonQ "Error reading Amazon Q config:"
    Config.readAmazonQConfig.
Proof.
  repeat split; intros w; eexists _, _;
    (split; [first [ apply CM_readClaudeConfig_run | apply CM_readAmazonQConfig_run
                   | apply Config_readClaudeConfig_run
                   | apply Config_readAmazonQConfig_run ]|]);
    (split; [apply files_read_log|]);
    by destruct w as [[] [] ? ? ? ?].
Qed.

(** ** Install and uninstall *)





(** C7. Writing the merge of the two freshly read host configurations and
    reading each host again gives two configurations whose [mcpServers]
    maps equal each other and the merged map, while the other top-level
    keys of each host file, and of what is read from it, are the ones the
    file held before the round trip. *)
Theorem write_merge_round_trip (w w1 w2 : world) (merged : MCPConfig) :
  Config.readMergedConfigs w = (Ok merged, w1) →
  Config.writeConfig merged w1 = (Ok tt, w2) →
  ∃ (a b : MCPConfig) (wa wb : world),
    Config.readClaudeConfig w2 = (Ok a, wa) ∧
    Config.readAmazonQConfig w2 = (Ok b, wb) ∧
    mcpServers a = mcpServers b ∧
    mcpServers a = mcpServers merged ∧
    others a = file_others (claudeFile w) ∧
    others b = file_others (amazonQFile w) ∧
    file_others (claudeFile w2) = file_others (claudeFile w) ∧
    file_others (amazonQFile w2) = file_others (amazonQFile w).
Proof.
  rewrite Config_readMergedConfigs_run. intros [= <- <-] H.
  apply Config_writeConfig_ok in H.
  rewrite claudeFile_after_reads, amazonQFile_after_reads in H.
  apply files_inv in H as [Hc Hq].
  rewrite Config_readClaudeConfig_run, Config_readAmazonQConfig_run.
  eexists _, _, _, _. split; [reflexivity|]. split; [reflexivity|].
  rewrite Hc, Hq, merged_config_mcpServers, !host_view_mcpServers.
  by repeat split.
Qed.

Lemma write_merge_round_trip_witness :
  ∃ (a b : MCPConfig) (wa wb : world),
    Config.readClaudeConfig (Config.writeConfig legacy_merged legacy_world).2
      = (Ok a, wa) ∧
    Config.readAmazonQConfig (Config.writeConfig legacy_merged legacy_world).2
      = (Ok b, wb) ∧
    mcpServers a = mcpServers b ∧
    mcpServers a = mcpServers legacy_merged ∧
    others a = file_others (claudeFile legacy_world) ∧
    others b = file_others (amazonQFile legacy_world) ∧
    file_others (claudeFile (Config.writeConfig legacy_merged legacy_world).2)
      = file_others (claudeFile legacy_world) ∧
    file_others (amazonQFile (Config.writeConfig legacy_merged legacy_world).2)
      = file_others (amazonQFile legacy_world).
Proof.
  apply (write_merge_round_trip legacy_world legacy_world
           (Config.writeConfig legacy_merged legacy_world).2 legacy_merged).
  - vm_compute. reflexivity.
  - vm_compute. reflexivity.
Defined.

(** C6, where the code departs from the claim. For a package whose name is
    one of the function-valued properties every object inherits from
    [Object.prototype], such as [constructor], a [uninstallPackage] that
    returns normally has written both host files and has not reported that
    the package is not installed, whether or not the merged configuration
    held an entry for it: the test [config.mcpServers[serverName]] reads
    the inherited function and takes the package for installed. *)
Theorem uninstallPackage_inherited_name
    (packageName : string) (w w0 w' : world) (merged : MCPConfig) :
  packageName ∈ Object_prototype_functions →
  ConfigManager.readMergedConfigs w = (Ok merged, w0) →
  ConfigManager.uninstallPackage packageName w = (Ok tt, w') →
  uninstalled packageName merged w w' ∧
  ¬ reported_not_installed packageName w w'.
Proof.
  intros Hn. rewrite CM_readMergedConfigs_run. intros [= <- <-].
  rewrite CM_uninstallPackage_run.
  destruct (servers_inherited_function None packageName Hn) as (_ & _ & ->).
  rewrite server_truthy_function by done.
  intros Hun%CM_uninstall_writes. split; [done|].
  destruct Hun as [_ Htr]. intros (_ & Hsame & _).
  rewrite Hsame in Htr. symmetry in Htr. by apply write_events_app_ne in Htr.
Qed.

Lemma uninstallPackage_inherited_name_witness :
  get_server "constructor" (merged_config fresh_world) = None ∧
  (uninstalled "constructor" (merged_config fresh_world) fresh_world
     (ConfigManager.uninstallPackage "constructor" fresh_world).2 ∧
   ¬ reported_not_installed "constructor" fresh_world
       (ConfigManager.uninstallPackage "constructor" fresh_world).2).
Proof.
  split; [vm_compute; reflexivity|].
  apply (uninstallPackage_inherited_name "constructor" fresh_world fresh_world
           (ConfigManager.uninstallPackage "constructor" fresh_world).2
           (merged_config fresh_world)).
  - apply elem_of_cons. left. reflexivity.
  - vm_compute. reflexivity.
  - vm_compute. reflexivity.
Defined.

(** C10. When the dash form of a package name differs from the name and the
    merged configuration holds entries under both, a successful
    [uninstallPackage] removes the dash-form entry only: the merged
    configuration read afterwards is the former one without the dash-form
    key, it still holds the raw-name entry, and [isPackageInstalled] still
    answers [true]. *)
Theorem uninstallPackage_keeps_slash_entry
    (packageName : string) (w w0 w' : world) (merged : MCPConfig)
    (e1 e2 : MCPServer) :
  replace_slashes packageName ≠ packageName →
  ConfigManager.readMergedConfigs w = (Ok merged, w0) →
  get_server (replace_slashes packageName) merged = Some e1 →
  get_server packageName merged = Some e2 →
  ConfigManager.uninstallPackage packageName w = (Ok tt, w') →
  ∃ (merged' : MCPConfig) (w'' : world),
    ConfigManager.readMergedConfigs w' = (Ok merged', w'') ∧
    or_empty (mcpServers merged') =
      delete (replace_slashes packageName) (or_empty (mcpServers merged)) ∧
    get_server packageName merged' = Some e2 ∧
    (ConfigManager.isPackageInstalled packageName w').1 = Ok true.
Proof.
  intros Hne Hread H1 H2 Hun.
  rewrite CM_readMergedConfigs_run in Hread. injection Hread as <- <-.
  unfold get_server in *.
  change (or_empty (mcpServers (merged_config w))) with (merged_servers w) in *.
  rewrite CM_uninstallPackage_run in Hun.
  rewrite (server_truthy_own _ e1) in Hun by done.
  apply CM_uninstall_writes, uninstalled_merged in Hun as [Hm _].
  rewrite CM_readMergedConfigs_run, CM_isPackageInstalled_run.
  eexists _, _. split; [reflexivity|].
  change (or_empty (mcpServers (merged_config w'))) with (merged_servers w').
  rewrite Hm. split; [done|].
  rewrite lookup_delete_ne by done. split; [done|].
  simpl. rewrite (in_mcpServers_merged packageName), Hm.
  rewrite lookup_delete_ne, H2 by done. by rewrite orb_true_r.
Qed.

Lemma uninstallPackage_keeps_slash_entry_witness :
  ∃ (merged' : MCPConfig) (w'' : world),
    ConfigManager.readMergedConfigs
      (ConfigManager.uninstallPackage "foo/bar" legacy_world).2
      = (Ok merged', w'') ∧
    or_empty (mcpServers merged') =
      delete "foo-bar" (or_empty (mcpServers legacy_merged)) ∧
    get_server "foo/bar" merged' = Some (sample_entry "foo/bar") ∧
    (ConfigManager.isPackageInstalled "foo/bar"
       (ConfigManager.uninstallPackage "foo/bar" legacy_world).2).1 = Ok true.
Proof.
  apply (uninstallPackage_keeps_slash_entry "foo/bar" legacy_world legacy_world
           (ConfigManager.uninstallPackage "foo/bar" legacy_world).2
           legacy_merged (sample_entry "foo/bar") (sample_entry "foo/bar")).
  - vm_compute. discriminate.
  - vm_compute. reflexivity.
  - vm_compute. reflexivity.
  - vm_compute. reflexivity.
  - vm_compute. reflexivity.
Defined.

(** * Further properties of the merge *)

Section MergePlain.

Implicit Types (P A : gmap string MCPServer) (k : string).

(** Without a primary server named [__proto__], and at a name that the
    secondary host lacks or that objects do not inherit, the merge is the
    left-biased union. *)
Lemma merged_entry_plain P A k :
  P !! "__proto__" = None →
  (is_Some (A !! k) → Object_prototype_prop k = NotInherited) →
  merged_entry P A k = (P ∪ A) !! k.
Proof.
  intros HP HA. unfold merged_entry. rewrite lookup_union, HP. simpl.
  destruct (decide (k = "__proto__")) as [->|Hk].
  - rewrite lookup_delete_eq, HP.
    destruct (A !! "__proto__") as [e|] eqn:He; [|done].
    by specialize (HA (mk_is_Some _ _ eq_refl)).
  - rewrite lookup_delete_ne by done.
    destruct (P !! k) as [e|]; [by destruct (A !! k)|].
    destruct (A !! k) as [e'|] eqn:He; [|done].
    by rewrite (HA (mk_is_Some _ _ eq_refl)).
Qed.

End MergePlain.

(** X1. When the primary host has no server named [__proto__], the merged
    entry of a server name is the primary's entry if it has one; otherwise
    it is the secondary's entry, except that a name every object inherits
    from [Object.prototype] ([constructor], [toString], [__proto__], ...)
    gets no entry. *)
Theorem mergeConfigs_servers_lookup
    (claudeConfig amazonQConfig : MCPConfig) (n : string) :
  get_server "__proto__" claudeConfig = None →
  get_server n (ConfigManager.mergeConfigs claudeConfig amazonQConfig) =
    match get_server n claudeConfig with
    | Some entry => Some entry
    | None =>
        if truthy_inherited (Object_prototype_prop n) then None
        else get_server n amazonQConfig
    end.
Proof.
  unfold get_server. intros Hproto.
  rewrite mergeConfigs_lookup. unfold merged_entry. rewrite Hproto. simpl.
  destruct (decide (n = "__proto__")) as [->|Hn].
  - rewrite lookup_delete_eq, Hproto. simpl.
    by destruct (or_empty (mcpServers amazonQConfig) !! "__proto__").
  - rewrite lookup_delete_ne by done.
    destruct (or_empty (mcpServers claudeConfig) !! n); [done|].
    destruct (or_empty (mcpServers amazonQConfig) !! n); [done|].
    by destruct (truthy_inherited (Object_prototype_prop n)).
Qed.

Lemma mergeConfigs_servers_lookup_witness :
  get_server "foo/bar"
    (ConfigManager.mergeConfigs (host_view (claudeFile legacy_world))
       (host_view (amazonQFile legacy_world)))
    = Some (sample_entry "foo/bar") ∧
  get_server "toString"
    (ConfigManager.mergeConfigs empty_config
       (plain_config {[ "toString" := sample_entry "toString" ]} ∅))
    = None.
Proof.
  split.
  - pose proof (mergeConfigs_servers_lookup (host_view (claudeFile legacy_world))
                  (host_view (amazonQFile legacy_world)) "foo/bar") as H.
    lazymatch goal with
    | |- ?G =>
        change (get_server "__proto__" (host_view (claudeFile legacy_world)) = None
                → G) in H
    end.
    apply H. vm_compute. reflexivity.
  - pose proof (mergeConfigs_servers_lookup empty_config
                  (plain_config {[ "toString" := sample_entry "toString" ]} ∅)
                  "toString") as H.
    lazymatch goal with
    | |- ?G => change (get_server "__proto__" empty_config = None → G) in H
    end.
    apply H. vm_compute. reflexivity.
Defined.

(** X2. When no server of either host has a name that objects inherit from
    [Object.prototype], swapping the two hosts leaves the merged server map
    unchanged exactly when the hosts agree on every server name they
    share. *)
Theorem mergeConfigs_servers_commute (claudeConfig amazonQConfig : MCPConfig) :
  (∀ n : string,
     is_Some (get_server n claudeConfig) ∨ is_Some (get_server n amazonQConfig) →
     Object_prototype_prop n = NotInherited) →
  mcpServers (ConfigManager.mergeConfigs claudeConfig amazonQConfig)
    = mcpServers (ConfigManager.mergeConfigs amazonQConfig claudeConfig)
  ↔ ∀ (n : string) (e e' : MCPServer),
      get_server n claudeConfig = Some e →
      get_server n amazonQConfig = Some e' → e = e'.
Proof.
  unfold get_server. intros Hplain.
  set (P := or_empty (mcpServers claudeConfig)) in *.
  set (A := or_empty (mcpServers amazonQConfig)) in *.
  assert (P !! "__proto__" = None ∧ A !! "__proto__" = None) as [HP HA].
  { split.
    - destruct (P !! "__proto__") eqn:H; [|done].
      pose proof (Hplain "__proto__" (or_introl (mk_is_Some _ _ H))) as Habs.
      vm_compute in Habs. discriminate Habs.
    - destruct (A !! "__proto__") eqn:H; [|done].
      pose proof (Hplain "__proto__" (or_intror (mk_is_Some _ _ H))) as Habs.
      vm_compute in Habs. discriminate Habs. }
  assert (∀ k,
    or_empty (mcpServers (ConfigManager.mergeConfigs claudeConfig amazonQConfig))
      !! k = (P ∪ A) !! k) as Hca.
  { intros k. rewrite mergeConfigs_lookup. apply merged_entry_plain; [done|].
    intros H. apply Hplain. by right. }
  assert (∀ k,
    or_empty (mcpServers (ConfigManager.mergeConfigs amazonQConfig claudeConfig))
      !! k = (A ∪ P) !! k) as Hac.
  { intros k. rewrite mergeConfigs_lookup. apply merged_entry_plain; [done|].
    intros H. apply Hplain. by left. }
  rewrite (mergeConfigs_mcpServers claudeConfig amazonQConfig),
    (mergeConfigs_mcpServers amazonQConfig claudeConfig). split.
  - intros [= Heq] n e e' He He'.
    apply (f_equal (λ m, m !! n)) in Heq.
    rewrite Hca, Hac, !lookup_union, He, He' in Heq.
    simpl in Heq. by injection Heq.
  - intros Hagree. f_equal. apply map_eq. intros n.
    rewrite Hca, Hac, !lookup_union.
    destruct (P !! n) as [e|] eqn:He, (A !! n) as [e'|] eqn:He'; simpl; try done.
    by rewrite (Hagree n e e' He He').
Qed.

Lemma mergeConfigs_servers_commute_witness :
  mcpServers
    (ConfigManager.mergeConfigs (host_view (claudeFile legacy_world))
       (host_view (amazonQFile legacy_world)))
    = mcpServers
        (ConfigManager.mergeConfigs (host_view (amazonQFile legacy_world))
           (host_view (claudeFile legacy_world))).
Proof.
  apply (mergeConfigs_servers_commute (host_view (claudeFile legacy_world))
           (host_view (amazonQFile legacy_world))).
  - intros n [[e He]|[e He]];
      cbv [get_server host_view claudeFile amazonQFile legacy_world plain_config
           mcpServers or_empty] in He;
      apply lookup_singleton_Some in He as [<- _]; vm_compute; reflexivity.
  - intros n e e' He He'.
    cbv [get_server host_view claudeFile amazonQFile legacy_world plain_config
         mcpServers or_empty] in He, He'.
    apply lookup_singleton_Some in He as [<- _].
    apply lookup_singleton_Some in He' as [Hne _]. discriminate Hne.
Defined.

(** * Further properties of the readers *)

(** X3. Reading the merged configuration (either variant) and asking whether
    a package is installed always return normally and change nothing: the
    two files and the permissions stay as they are and no directory is
    created and no file written. The merged [mcpServers] is always an
    object. *)
Theorem reads_change_nothing (packageName : string) (w : world) :
  (∃ (cfg : MCPConfig) (w' : world),
     ConfigManager.readMergedConfigs w = (Ok cfg, w') ∧
     Config.readMergedConfigs w = (Ok cfg, w') ∧
     is_Some (mcpServers cfg) ∧
     files w' = files w ∧ same_env w w' ∧
     List.filter is_write (trace w') = List.filter is_write (trace w)) ∧
  (∃ (b : bool) (w' : world),
     ConfigManager.isPackageInstalled packageName w = (Ok b, w') ∧
     files w' = files w ∧ same_env w w' ∧
     List.filter is_write (trace w') = List.filter is_write (trace w)).
Proof.
  split.
  - eexists _, _. split; [apply CM_readMergedConfigs_run|].
    split; [apply Config_readMergedConfigs_run|].
    split; [by rewrite merged_config_mcpServers|].
    split; [apply files_after_reads|].
    split; [apply same_env_after_reads | apply is_write_after_reads].
  - eexists _, _. split; [apply CM_isPackageInstalled_run|].
    split; [apply files_after_reads|].
    split; [apply same_env_after_reads | apply is_write_after_reads].
Qed.

(** * Further properties of the writers *)

(** X4. When the Claude side cannot be written, [writeConfig] (either
    variant) raises the permission error of the Claude host, leaves both
    files as they were and does not attempt the Amazon Q side: no directory
    is created and no file written. The [ConfigManager] variant logs the
    error before raising it again; the free-function variant leaves the
    world untouched. *)
Theorem writeConfig_claude_unwritable (config : MCPConfig) (w : world) :
  claudeWritable w = false →
  (ConfigManager.writeConfig config w).1 = Throw (EACCES Claude) ∧
  files (ConfigManager.writeConfig config w).2 = files w ∧
  List.filter is_write (trace (ConfigManager.writeConfig config w).2)
    = List.filter is_write (trace w) ∧
  last (trace (ConfigManager.writeConfig config w).2)
    = Some (ConsoleError "Error writing config:") ∧
  Config.writeConfig config w = (Throw (EACCES Claude), w).
Proof.
  destruct w as [[] [] cw aw u tr]; simpl; intros ->; simpl;
    rewrite ?List.filter_app, ?last_snoc; simpl; by rewrite ?app_nil_r.
Qed.

Lemma writeConfig_claude_unwritable_witness :
  (ConfigManager.writeConfig legacy_merged claude_locked_world).1
    = Throw (EACCES Claude) ∧
  files (ConfigManager.writeConfig legacy_merged claude_locked_world).2
    = files claude_locked_world ∧
  List.filter is_write
    (trace (ConfigManager.writeConfig legacy_merged claude_locked_world).2)
    = List.filter is_write (trace claude_locked_world) ∧
  last (trace (ConfigManager.writeConfig legacy_merged claude_locked_world).2)
    = Some (ConsoleError "Error writing config:") ∧
  Config.writeConfig legacy_merged claude_locked_world
    = (Throw (EACCES Claude), claude_locked_world).
Proof.
  apply (writeConfig_claude_unwritable legacy_merged claude_locked_world).
  reflexivity.
Defined.

(** X5. When the Claude side can be written and the Amazon Q side cannot,
    [writeConfig] (either variant) raises the permission error of the Amazon
    Q host after the Claude file has been replaced: the Claude file holds
    the new server map with its own other keys, the Amazon Q file is as it
    was. *)
Theorem writeConfig_amazonQ_unwritable
    (config : MCPConfig) (m : gmap string MCPServer) (w : world) :
  mcpServers config = Some m →
  claudeWritable w = true →
  amazonQWritable w = false →
  (ConfigManager.writeConfig config w).1 = Throw (EACCES AmazonQ) ∧
  claudeFile (ConfigManager.writeConfig config w).2
    = Holds {| mcpServers := Some m; others := file_others (claudeFile w);
               mcpServers_proto := None; config_proto := None |} ∧
  amazonQFile (ConfigManager.writeConfig config w).2 = amazonQFile w ∧
  (Config.writeConfig config w).1 = Throw (EACCES AmazonQ) ∧
  claudeFile (Config.writeConfig config w).2
    = Holds {| mcpServers := Some m; others := file_others (claudeFile w);
               mcpServers_proto := None; config_proto := None |} ∧
  amazonQFile (Config.writeConfig config w).2 = amazonQFile w.
Proof.
  intros Hm Hc Ha.
  destruct (CM_writeConfig_run config w) as [H1 _].
  destruct (Config_writeConfig_run config w) as [H2 _].
  unfold write_outcome in H1, H2. rewrite Hm, Hc, Ha in H1, H2. simpl in H2.
  injection H1 as R1 C1 A1. injection H2 as R2 C2 A2.
  by repeat split.
Qed.

Lemma writeConfig_amazonQ_unwritable_witness :
  (ConfigManager.writeConfig legacy_merged amazonQ_locked_world).1
    = Throw (EACCES AmazonQ) ∧
  claudeFile (ConfigManager.writeConfig legacy_merged amazonQ_locked_world).2
    = Holds {| mcpServers := mcpServers legacy_merged;
               others := {[ "theme" := JStr "dark" ]};
               mcpServers_proto := None; config_proto := None |} ∧
  amazonQFile (ConfigManager.writeConfig legacy_merged amazonQ_locked_world).2
    = NoDir ∧
  (Config.writeConfig legacy_merged amazonQ_locked_world).1
    = Throw (EACCES AmazonQ) ∧
  claudeFile (Config.writeConfig legacy_merged amazonQ_locked_world).2
    = Holds {| mcpServers := mcpServers legacy_merged;
               others := {[ "theme" := JStr "dark" ]};
               mcpServers_proto := None; config_proto := None |} ∧
  amazonQFile (Config.writeConfig legacy_merged amazonQ_locked_world).2 = NoDir.
Proof.
  apply (writeConfig_amazonQ_unwritable legacy_merged _ amazonQ_locked_world);
    reflexivity.
Defined.

(** X6. On a configuration whose [mcpServers] is an object the two variants
    of [writeConfig] have the same outcome: the same result or exception,
    the same two files, and the same directory creations and file writes in
    the same order. They differ in console output only. *)
Theorem writeConfig_variants_agree (config : MCPConfig) (w : world) :
  is_Some (mcpServers config) →
  (Config.writeConfig config w).1 = (ConfigManager.writeConfig config w).1 ∧
  files (Config.writeConfig config w).2
    = files (ConfigManager.writeConfig config w).2 ∧
  List.filter is_write (trace (Config.writeConfig config w).2)
    = List.filter is_write (trace (ConfigManager.writeConfig config w).2).
Proof.
  intros [m Hm]. destruct config as [ms o sp cp]. simpl in Hm. subst ms.
  destruct w as [[] [] [] [] u tr]; simpl;
    rewrite ?List.filter_app; simpl; by rewrite ?app_nil_r.
Qed.

Lemma writeConfig_variants_agree_witness :
  (Config.writeConfig legacy_merged sample_world).1
    = (ConfigManager.writeConfig legacy_merged sample_world).1 ∧
  files (Config.writeConfig legacy_merged sample_world).2
    = files (ConfigManager.writeConfig legacy_merged sample_world).2 ∧
  List.filter is_write (trace (Config.writeConfig legacy_merged sample_world).2)
    = List.filter is_write
        (trace (ConfigManager.writeConfig legacy_merged sample_world).2).
Proof.
  apply (writeConfig_variants_agree legacy_merged sample_world).
  eexists. reflexivity.
Defined.

(** * Further properties of install and uninstall *)

(** X7. After a successful [installPackage], both host files hold the same
    server map: the merged map read before the install with the entry of
    the package assigned under its dash-form name. So every other server
    of the merged configuration is kept, with its entry, and reaches both
    files; an entry already stored under that name is replaced; and a
    package whose dash-form name is [__proto__] leaves the map as it was,
    because the assignment sets the prototype of the map instead of
    storing an entry. The entry is [npx -y <name>] for runtime [node] and
    [uvx <name>] for [python]. *)
Theorem installPackage_stores_entry
    (pkg : Package) (envVars : option (gmap string string))
    (w w0 w' : world) (merged : MCPConfig) :
  ConfigManager.readMergedConfigs w = (Ok merged, w0) →
  ConfigManager.installPackage pkg envVars w = (Ok tt, w') →
  let entry :=
    {| runtime := Some (pkg_runtime pkg);
       command := Some match pkg_runtime pkg with
                       | node => "npx"
                       | python => "uvx"
                       end;
       args := Some match pkg_runtime pkg with
                    | node => ["-y"; name pkg]
                    | python => [name pkg]
                    end;
       env := envVars |} in
  file_servers (claudeFile w')
    = assigned (replace_slashes (name pkg)) entry (or_empty (mcpServers merged)) ∧
  file_servers (amazonQFile w')
    = assigned (replace_slashes (name pkg)) entry (or_empty (mcpServers merged)).
Proof.
  rewrite CM_readMergedConfigs_run. intros [= <- <-] H. simpl.
  destruct (CM_installPackage_outcome pkg envVars w) as [Hout _].
  rewrite H in Hout. simpl in Hout.
  destruct (install_outcome_ok _ _ _ _ _ Hout eq_refl) as (Hf & _).
  apply files_inv in Hf as [-> ->]. simpl.
  unfold CM_serverConfig, merged_servers. by destruct (pkg_runtime pkg).
Qed.

Lemma installPackage_stores_entry_witness :
  file_servers (claudeFile
      (ConfigManager.installPackage {| name := "a/b"; pkg_runtime := python |}
         None sample_world).2)
    = assigned "a-b" {| runtime := Some python; command := Some "uvx";
                        args := Some ["a/b"]; env := None |}
        (or_empty (mcpServers sample_merged)) ∧
  file_servers (amazonQFile
      (ConfigManager.installPackage {| name := "a/b"; pkg_runtime := python |}
         None sample_world).2)
    = assigned "a-b" {| runtime := Some python; command := Some "uvx";
                        args := Some ["a/b"]; env := None |}
        (or_empty (mcpServers sample_merged)).
Proof.
  apply (installPackage_stores_entry {| name := "a/b"; pkg_runtime := python |}
           None sample_world sample_world
           (ConfigManager.installPackage {| name := "a/b"; pkg_runtime := python |}
              None sample_world).2 sample_merged).
  - vm_compute. reflexivity.
  - vm_compute. reflexivity.
Defined.

(** X8. After a successful [installMCPServer], both host files hold the
    merged map read before the install with the entry of the package
    assigned under its dash-form name (a dash-form name [__proto__] leaves
    the map as it was). The runtime of the entry is the explicit one if
    given, else the one the registry knows, else [node]. For [node] the
    command is [npx] with arguments [-y <name>]; for [python] the arguments
    are [<name>] and the command is the trimmed output of the launcher
    lookup, or [uvx] when the lookup fails. *)
Theorem installMCPServer_stores_entry
    (loadPackage : string → option Package) (packageName : string)
    (envVars : option (gmap string string)) (rt : option Runtime)
    (w w0 w' : world) (merged : MCPConfig) :
  Config.readMergedConfigs w = (Ok merged, w0) →
  Config.installMCPServer loadPackage packageName envVars rt w = (Ok tt, w') →
  let r :=
    match rt, loadPackage packageName with
    | Some r, _ => r
    | None, Some pkg => pkg_runtime pkg
    | None, None => node
    end in
  let entry :=
    {| runtime := Some r;
       command := Some match r, whichUvx w with
                       | node, _ => "npx"
                       | python, Some stdout => trim stdout
                       | python, None => "uvx"
                       end;
       args := Some match r with
                    | node => ["-y"; packageName]
                    | python => [packageName]
                    end;
       env := envVars |} in
  file_servers (claudeFile w')
    = assigned (replace_slashes packageName) entry (or_empty (mcpServers merged)) ∧
  file_servers (amazonQFile w')
    = assigned (replace_slashes packageName) entry (or_empty (mcpServers merged)).
Proof.
  rewrite Config_readMergedConfigs_run. intros [= <- <-] H. simpl.
  assert (∃ r, Config.installMCPServer loadPackage packageName envVars rt w
               = Config.installMCPServer loadPackage packageName envVars (Some r) w ∧
               r = match rt, loadPackage packageName with
                   | Some r, _ => r
                   | None, Some pkg => pkg_runtime pkg
                   | None, None => node
                   end) as (r & Hr & Heq).
  { destruct rt as [r|]; [by exists r|].
    eexists. split; [apply Config_installMCPServer_registry|].
    unfold Config.getPackageRuntime. by destruct (loadPackage packageName). }
  rewrite <- Heq. rewrite Hr in H.
  destruct (Config_installMCPServer_outcome loadPackage packageName envVars r w)
    as [Hout _].
  rewrite H in Hout. simpl in Hout.
  destruct (install_outcome_ok _ _ _ _ _ Hout eq_refl) as (Hf & _).
  apply files_inv in Hf as [-> ->]. simpl.
  unfold Config_serverConfig, merged_servers. by destruct r.
Qed.

Lemma installMCPServer_stores_entry_witness :
  file_servers (claudeFile
      (Config.installMCPServer (λ _, None) "a/b" None (Some python) uvx_world).2)
    = assigned "a-b" {| runtime := Some python;
                        command := Some "/usr/local/bin/uvx";
                        args := Some ["a/b"]; env := None |}
        (or_empty (mcpServers sample_merged)) ∧
  file_servers (amazonQFile
      (Config.installMCPServer (λ _, None) "a/b" None (Some python) uvx_world).2)
    = assigned "a-b" {| runtime := Some python;
                        command := Some "/usr/local/bin/uvx";
                        args := Some ["a/b"]; env := None |}
        (or_empty (mcpServers sample_merged)).
Proof.
  apply (installMCPServer_stores_entry (λ _, None) "a/b" None (Some python)
           uvx_world uvx_world
           (Config.installMCPServer (λ _, None) "a/b" None (Some python)
              uvx_world).2 sample_merged).
  - vm_compute. reflexivity.
  - vm_compute. reflexivity.
Defined.

(** X9. For runtime [node] the two install functions have the same
    outcome on every world: the same result or exception and the same two
    files. For runtime [python] they do as well whenever the launcher
    lookup fails or answers [uvx] itself. *)
Theorem install_variants_agree
    (loadPackage : string → option Package) (packageName : string)
    (envVars : option (gmap string string)) (r : Runtime) (w : world) :
  (r = python → ∀ stdout, whichUvx w = Some stdout → trim stdout = "uvx") →
  (Config.installMCPServer loadPackage packageName envVars (Some r) w).1
    = (ConfigManager.installPackage {| name := packageName; pkg_runtime := r |}
         envVars w).1 ∧
  files (Config.installMCPServer loadPackage packageName envVars (Some r) w).2
    = files (ConfigManager.installPackage
               {| name := packageName; pkg_runtime := r |} envVars w).2.
Proof.
  intros Hlookup.
  destruct (Config_installMCPServer_outcome loadPackage packageName envVars r w)
    as [H1 _].
  destruct (CM_installPackage_outcome {| name := packageName; pkg_runtime := r |}
              envVars w) as [H2 _].
  simpl in H2.
  assert (Config_serverConfig packageName envVars r w
          = CM_serverConfig {| name := packageName; pkg_runtime := r |} envVars)
    as He.
  { unfold Config_serverConfig, CM_serverConfig. simpl. destruct r; [done|].
    destruct (whichUvx w) as [stdout|] eqn:Hu; [|done].
    by rewrite (Hlookup eq_refl stdout). }
  rewrite He, <- H2 in H1.
  split; [exact (f_equal fst H1) | exact (f_equal snd H1)].
Qed.

Lemma install_variants_agree_witness :
  (Config.installMCPServer (λ _, None) "a/b" None (Some python) sample_world).1
    = (ConfigManager.installPackage {| name := "a/b"; pkg_runtime := python |}
         None sample_world).1 ∧
  files (Config.installMCPServer (λ _, None) "a/b" None (Some python)
           sample_world).2
    = files (ConfigManager.installPackage
               {| name := "a/b"; pkg_runtime := python |} None sample_world).2.
Proof.
  apply (install_variants_agree (λ _, None) "a/b" None python sample_world).
  intros _ stdout H. vm_compute in H. discriminate H.
Defined.

Section UninstallPlain.

Implicit Types (w : world) (packageName : string).

(** The merged map after an uninstall that returned normally, for a
    package whose name objects do not inherit, read from a Claude file
    without a server named [__proto__]. *)
Lemma CM_uninstall_merged packageName w w' :
  file_servers (claudeFile w) !! "__proto__" = None →
  Object_prototype_prop packageName = NotInherited →
  ConfigManager.uninstallPackage packageName w = (Ok tt, w') →
  merged_servers w' =
    match merged_servers w !! replace_slashes packageName,
          merged_servers w !! packageName with
    | Some _, _ => delete (replace_slashes packageName) (merged_servers w)
    | None, Some _ => delete packageName (merged_servers w)
    | None, None => merged_servers w
    end ∧
  file_servers (claudeFile w') !! "__proto__" = None.
Proof.
  intros Hproto Hname. rewrite <- merged_config_proto in Hproto.
  rewrite <- (merged_config_proto w').
  pose proof (replace_slashes_not_inherited _ Hname) as Hdash.
  rewrite CM_uninstallPackage_run, !server_truthy_plain by done.
  destruct (merged_servers w !! replace_slashes packageName) as [e1|]; simpl.
  { by intros Hun%CM_uninstall_writes%uninstalled_merged. }
  destruct (merged_servers w !! packageName) as [e2|]; simpl.
  { by intros Hun%CM_uninstall_writes%uninstalled_merged. }
  intros [= <-].
  assert (merged_config (emit (ConsoleLog (not_installed_msg packageName))
                           (after_reads w)) = merged_config w) as Hsame.
  { apply merged_config_files. simpl. apply files_after_reads. }
  unfold merged_servers. by rewrite Hsame.
Qed.

Lemma CM_isPackageInstalled_plain packageName w :
  file_servers (claudeFile w) !! "__proto__" = None →
  Object_prototype_prop packageName = NotInherited →
  (ConfigManager.isPackageInstalled packageName w).1 =
    Ok (truthy_obj (merged_servers w !! replace_slashes packageName)
        || truthy_obj (merged_servers w !! packageName)).
Proof.
  intros Hproto Hname. rewrite <- merged_config_proto in Hproto.
  pose proof (replace_slashes_not_inherited _ Hname) as Hdash.
  rewrite CM_isPackageInstalled_run. simpl.
  by rewrite !in_mcpServers_plain.
Qed.

End UninstallPlain.

(** X10. Let the Claude file hold no server named [__proto__] and let the
    package name be none that objects inherit from [Object.prototype].
    After a successful [uninstallPackage], [isPackageInstalled] answers
    [false], unless the package was registered under both its dash form
    and a different raw name: that is, whenever the two names coincide or
    the merged configuration lacked an entry under one of them. *)
Theorem uninstallPackage_then_not_installed
    (packageName : string) (w w0 w' : world) (merged : MCPConfig) :
  file_servers (claudeFile w) !! "__proto__" = None →
  Object_prototype_prop packageName = NotInherited →
  ConfigManager.readMergedConfigs w = (Ok merged, w0) →
  replace_slashes packageName = packageName ∨
    get_server (replace_slashes packageName) merged = None ∨
    get_server packageName merged = None →
  ConfigManager.uninstallPackage packageName w = (Ok tt, w') →
  (ConfigManager.isPackageInstalled packageName w').1 = Ok false.
Proof.
  intros Hproto Hname. rewrite CM_readMergedConfigs_run. intros [= <- <-].
  unfold get_server.
  change (or_empty (mcpServers (merged_config w))) with (merged_servers w).
  intros Hcase Hun.
  destruct (CM_uninstall_merged _ _ _ Hproto Hname Hun) as [Hm Hproto'].
  rewrite CM_isPackageInstalled_plain by done. f_equal. rewrite Hm.
  destruct (merged_servers w !! replace_slashes packageName) as [e1|] eqn:H1.
  { rewrite lookup_delete_eq. simpl.
    destruct (decide (replace_slashes packageName = packageName)) as [Heq|Hne].
    - by rewrite Heq, lookup_delete_eq.
    - rewrite lookup_delete_ne by done.
      destruct Hcase as [?|[?|Hraw]]; [done|done|]. by rewrite Hraw. }
  destruct (merged_servers w !! packageName) as [e2|] eqn:H2.
  { rewrite lookup_delete_eq, orb_false_r.
    destruct (decide (packageName = replace_slashes packageName)) as [Heq|Hne].
    - by rewrite <- Heq, lookup_delete_eq.
    - rewrite lookup_delete_ne by done. by rewrite H1. }
  by rewrite H1, H2.
Qed.

Lemma uninstallPackage_then_not_installed_witness :
  (ConfigManager.isPackageInstalled "foo/bar"
     (ConfigManager.uninstallPackage "foo/bar" slash_only_world).2).1 = Ok false.
Proof.
  apply (uninstallPackage_then_not_installed "foo/bar" slash_only_world
           slash_only_world
           (ConfigManager.uninstallPackage "foo/bar" slash_only_world).2
           slash_only_merged).
  - vm_compute. reflexivity.
  - vm_compute. reflexivity.
  - vm_compute. reflexivity.
  - right. left. vm_compute. reflexivity.
  - vm_compute. reflexivity.
Defined.

(** X11. Installing a package whose dash-form name is not registered and
    then uninstalling it, both successfully, gives back the merged server
    map there was before: the merged configuration read afterwards has the
    [mcpServers] of the one read at the start. *)
Theorem install_uninstall_round_trip
    (pkg : Package) (envVars : option (gmap string string))
    (w w0 w1 w2 : world) (merged : MCPConfig) :
  ConfigManager.readMergedConfigs w = (Ok merged, w0) →
  get_server (replace_slashes (name pkg)) merged = None →
  ConfigManager.installPackage pkg envVars w = (Ok tt, w1) →
  ConfigManager.uninstallPackage (name pkg) w1 = (Ok tt, w2) →
  ∃ (merged2 : MCPConfig) (w3 : world),
    ConfigManager.readMergedConfigs w2 = (Ok merged2, w3) ∧
    mcpServers merged2 = mcpServers merged.
Proof.
  rewrite CM_readMergedConfigs_run. intros [= <- <-].
  unfold get_server.
  change (or_empty (mcpServers (merged_config w))) with (merged_servers w).
  intros Hfresh Hin Hun.
  destruct (CM_installPackage_outcome pkg envVars w) as [Hout _].
  rewrite Hin in Hout. simpl in Hout.
  destruct (install_outcome_ok _ _ _ _ _ Hout eq_refl) as (_ & Hm & Hp & _).
  rewrite CM_readMergedConfigs_run. eexists _, _. split; [reflexivity|].
  rewrite !merged_config_mcpServers. f_equal.
  rewrite CM_uninstallPackage_run in Hun.
  assert (server_truthy (replace_slashes (name pkg)) (merged_config w1) = true)
    as Ht.
  { unfold server_truthy.
    change (or_empty (mcpServers (merged_config w1))) with (merged_servers w1).
    rewrite Hm, Hp. unfold assigned. case_bool_decide as Hsn.
    - rewrite Hfresh, Hsn. reflexivity.
    - by rewrite lookup_insert_eq. }
  rewrite Ht in Hun.
  apply CM_uninstall_writes, uninstalled_merged in Hun as [-> _].
  rewrite Hm. unfold assigned. case_bool_decide.
  - by apply delete_id.
  - by rewrite delete_insert_eq, delete_id.
Qed.

Lemma install_uninstall_round_trip_witness :
  ∃ (merged2 : MCPConfig) (w3 : world),
    ConfigManager.readMergedConfigs
      (ConfigManager.uninstallPackage "a/b"
         (ConfigManager.installPackage {| name := "a/b"; pkg_runtime := node |}
            None sample_world).2).2 = (Ok merged2, w3) ∧
    mcpServers merged2 = mcpServers sample_merged.
Proof.
  apply (install_uninstall_round_trip {| name := "a/b"; pkg_runtime := node |}
           None sample_world sample_world
           (ConfigManager.installPackage {| name := "a/b"; pkg_runtime := node |}
              None sample_world).2).
  - vm_compute. reflexivity.
  - vm_compute. reflexivity.
  - vm_compute. reflexivity.
  - vm_compute. reflexivity.
Defined.

(** X12. A failed install can be retried. Let the Claude file hold no
    server named [__proto__]. When the Claude side can be written and the
    Amazon Q side cannot, [installPackage] raises the permission error of
    the Amazon Q host; once the Amazon Q side has become writable,
    installing again succeeds and leaves the two files exactly as an
    install that met no obstacle would have left them. *)
Theorem install_retry_after_partial_failure
    (pkg : Package) (envVars : option (gmap string string)) (w : world) :
  file_servers (claudeFile w) !! "__proto__" = None →
  claudeWritable w = true →
  amazonQWritable w = false →
  (ConfigManager.installPackage pkg envVars w).1 = Throw (EACCES AmazonQ) ∧
  (ConfigManager.installPackage pkg envVars
     (unlock_amazonQ (ConfigManager.installPackage pkg envVars w).2)).1 = Ok tt ∧
  files (ConfigManager.installPackage pkg envVars
           (unlock_amazonQ (ConfigManager.installPackage pkg envVars w).2)).2
    = files (ConfigManager.installPackage pkg envVars (unlock_amazonQ w)).2.
Proof.
  intros Hproto Hc Ha.
  destruct (CM_installPackage_outcome pkg envVars w) as [H1 (E1 & _ & _)].
  destruct (CM_installPackage_outcome pkg envVars
              (unlock_amazonQ (ConfigManager.installPackage pkg envVars w).2))
    as [H2 _].
  destruct (CM_installPackage_outcome pkg envVars (unlock_amazonQ w)) as [H3 _].
  set (failed := (ConfigManager.installPackage pkg envVars w).2) in *.
  unfold write_outcome in H1, H2, H3. simpl in H2, H3.
  rewrite Hc, Ha in H1. rewrite E1, Hc in H2. rewrite Hc in H3.
  injection H1 as R1 C1 A1. injection H2 as R2 C2 A2. injection H3 as R3 C3 A3.
  assert (merged_servers failed =
          assigned (replace_slashes (name pkg)) (CM_serverConfig pkg envVars)
            (merged_servers w)) as Hm
    by (by apply merged_servers_claude_written).
  assert (merged_servers (unlock_amazonQ failed) = merged_servers failed) as Hu
    by done.
  assert (merged_servers (unlock_amazonQ w) = merged_servers w) as Hu' by done.
  rewrite Hu, Hm, assigned_idem in C2, A2. rewrite Hu' in C3, A3.
  split; [done|]. split; [done|].
  unfold files. rewrite C2, A2, C3, A3, C1, A1. done.
Qed.

Lemma install_retry_after_partial_failure_witness :
  (ConfigManager.installPackage {| name := "a/b"; pkg_runtime := node |} None
     amazonQ_locked_world).1 = Throw (EACCES AmazonQ) ∧
  (ConfigManager.installPackage {| name := "a/b"; pkg_runtime := node |} None
     (unlock_amazonQ
        (ConfigManager.installPackage {| name := "a/b"; pkg_runtime := node |}
           None amazonQ_locked_world).2)).1 = Ok tt ∧
  files (ConfigManager.installPackage {| name := "a/b"; pkg_runtime := node |} None
           (unlock_amazonQ
              (ConfigManager.installPackage
                 {| name := "a/b"; pkg_runtime := node |} None
                 amazonQ_locked_world).2)).2
    = files (ConfigManager.installPackage {| name := "a/b"; pkg_runtime := node |}
               None (unlock_amazonQ amazonQ_locked_world)).2.
Proof.
  apply (install_retry_after_partial_failure
           {| name := "a/b"; pkg_runtime := node |} None amazonQ_locked_world).
  - vm_compute. reflexivity.
  - reflexivity.
  - reflexivity.
Defined.


(** * The server name of a package *)

(** X14. The dash-form name under which a package is stored has the length
    of the package name, contains no [/], is left alone by a second
    replacement, and equals the package name exactly when that name
    contains no [/]. *)
Theorem replace_slashes_facts (packageName : string) :
  (String.length (replace_slashes packageName) = String.length packageName) ∧
  ("/"%char ∉ list_ascii_of_string (replace_slashes packageName)) ∧
  (replace_slashes (replace_slashes packageName) = replace_slashes packageName) ∧
  (replace_slashes packageName = packageName
     ↔ ("/"%char ∉ list_ascii_of_string packageName)).
Proof.
  induction packageName as [|c s (IH1 & IH2 & IH3 & IH4)]; simpl.
  { repeat split; try done; unfold not; intros;
      match goal with H : _ ∈ [] |- _ => inversion H end. }
  destruct (Ascii.eqb_spec c "/") as [->|Hc]; simpl.
  - rewrite IH1, IH3. repeat split; try done.
    + rewrite not_elem_of_cons. done.
    + rewrite not_elem_of_cons. intros [? ?]. done.
  - rewrite IH1. destruct (Ascii.eqb_spec c "/") as [?|_]; [done|].
    rewrite IH3. repeat split; try done.
    + rewrite not_elem_of_cons. split; [congruence|done].
    + intros [= Hs]. rewrite not_elem_of_cons. split; [congruence|by apply IH4].
    + rewrite not_elem_of_cons. intros [_ Hs]. f_equal. by apply IH4.
Qed.

(** * Environment variables as command-line flags *)

Section Flags.

Variable toLowerCase : string → string.

Lemma flag_char (c : ascii) :
  (if Ascii.eqb (lower_ascii c) "_" then "-"%char else lower_ascii c) ≠ "_"%char ∧
  is_upper (if Ascii.eqb (lower_ascii c) "_" then "-"%char else lower_ascii c)
    = false.
Proof. destruct c as [[] [] [] [] [] [] [] []]; vm_compute; by split. Qed.

Lemma ascii_flag_name (key : string) :
  String.length (replace_underscores (ascii_toLowerCase key)) = String.length key ∧
  ∀ c : ascii,
    c ∈ list_ascii_of_string (replace_underscores (ascii_toLowerCase key)) →
    c ≠ "_"%char ∧ is_upper c = false.
Proof.
  induction key as [|c0 key [IHlen IH]]; simpl.
  { split; [done|]. intros c H. inversion H. }
  split; [by rewrite IHlen|].
  intros c [->|Hc]%elem_of_cons; [apply flag_char | by apply IH].
Qed.

Lemma envVarsToArgs_cons key value (envVars : list (string * string)) :
  Config.envVarsToArgs toLowerCase ((key, value) :: envVars) =
    ("--" +:+ replace_underscores (toLowerCase key))
      :: value :: Config.envVarsToArgs toLowerCase envVars.
Proof. reflexivity. Qed.

Lemma envVarsToArgs_length (envVars : list (string * string)) :
  length (Config.envVarsToArgs toLowerCase envVars) = 2 * length envVars.
Proof.
  induction envVars as [|[k v] rest IH]; [done|].
  rewrite envVarsToArgs_cons. simpl. rewrite IH. lia.
Qed.

End Flags.

(** X15. [envVarsToArgs] turns the entries of the mapping, in their order,
    into twice as many arguments: entry number [i], with key [key] and
    value [value], gives the flag [--] followed by the lower-cased key with
    [_] replaced by [-] at position [2i] and the value, unchanged, at
    position [2i + 1]. The lower-casing is that of
    [String.prototype.toLowerCase], whatever it does to the key. *)
Theorem envVarsToArgs_pairs
    (toLowerCase : string → string)
    (envVars : list (string * string)) (i : nat) (key value : string) :
  envVars !! i = Some (key, value) →
  length (Config.envVarsToArgs toLowerCase envVars) = 2 * length envVars ∧
  Config.envVarsToArgs toLowerCase envVars !! (2 * i)
    = Some ("--" +:+ replace_underscores (toLowerCase key)) ∧
  Config.envVarsToArgs toLowerCase envVars !! (2 * i + 1) = Some value.
Proof.
  intros Hi. split; [apply envVarsToArgs_length|].
  revert i Hi. induction envVars as [|[k v] rest IH]; intros i Hi; [done|].
  rewrite envVarsToArgs_cons. destruct i as [|i]; simpl in Hi.
  - by injection Hi as -> ->.
  - destruct (IH i Hi) as (Hflag & Hval).
    replace (2 * S i) with (S (S (2 * i))) by lia.
    replace (S (S (2 * i)) + 1) with (S (S (2 * i + 1))) by lia.
    done.
Qed.

Lemma envVarsToArgs_pairs_witness :
  length (Config.envVarsToArgs ascii_toLowerCase
            [("API_KEY", "x"); ("MAX_TOKENS", "5")]) = 2 * 2 ∧
  Config.envVarsToArgs ascii_toLowerCase
    [("API_KEY", "x"); ("MAX_TOKENS", "5")] !! (2 * 1) = Some "--max-tokens" ∧
  Config.envVarsToArgs ascii_toLowerCase
    [("API_KEY", "x"); ("MAX_TOKENS", "5")] !! (2 * 1 + 1) = Some "5".
Proof.
  apply (envVarsToArgs_pairs ascii_toLowerCase
           [("API_KEY", "x"); ("MAX_TOKENS", "5")] 1 "MAX_TOKENS" "5").
  reflexivity.
Defined.

(** X16. For a key of ASCII characters, on which
    [String.prototype.toLowerCase] lowers the letters [A] to [Z] and
    nothing else, the flag name [envVarsToArgs] derives from the key has
    the length of the key and contains neither an underscore nor an
    upper-case ASCII letter. *)
Theorem envVarsToArgs_flag_name (toLowerCase : string → string) (key : string) :
  lowers_ascii toLowerCase →
  ascii_only key = true →
  String.length (replace_underscores (toLowerCase key)) = String.length key ∧
  ∀ c : ascii,
    c ∈ list_ascii_of_string (replace_underscores (toLowerCase key)) →
    c ≠ "_"%char ∧ is_upper c = false.
Proof. intros Hlow Hkey. rewrite (Hlow key Hkey). apply ascii_flag_name. Qed.

Lemma envVarsToArgs_flag_name_witness :
  (String.length (replace_underscores (ascii_toLowerCase "API_KEY"))
     = String.length "API_KEY") ∧
  ("a"%char ≠ "_"%char ∧ is_upper "a" = false).
Proof.
  destruct (envVarsToArgs_flag_name ascii_toLowerCase "API_KEY")
    as [Hlen Hchars].
  - intros s _. reflexivity.
  - reflexivity.
  - split; [exact Hlen|]. apply Hchars. apply elem_of_cons. by left.
Defined.

(** * Preferences *)

(** X17. [readPreferences] returns on every state of the preferences file
    and leaves the world untouched, console included: it answers the parsed
    preferences when the file parses and the empty preferences when the
    file is missing or fails to parse. *)
Theorem readPreferences_defensive (w : prefs_world) :
  ConfigManager.readPreferences w =
    (Returned match prefsFile w with
              | PrefsHold p => p
              | _ => {| allowAnalytics := None |}
              end, w).
Proof. by destruct w as [[] ? ?]. Qed.

(** X18. When the preferences location can be written, [writePreferences]
    returns normally, creates the directory exactly when it is missing, and
    replaces the file, whatever it held, so that [readPreferences] then
    answers the preferences just written. *)
Theorem writePreferences_round_trip (prefs : MCPPreferences) (w : prefs_world) :
  prefsWritable w = true →
  ∃ w' : prefs_world,
    ConfigManager.writePreferences prefs w = (Returned tt, w') ∧
    prefsFile w' = PrefsHold prefs ∧
    prefs_trace w' =
      (prefs_trace w ++
       match prefsFile w with
       | PrefsNoDir => [PrefsMkdir; PrefsWriteFile]
       | _ => [PrefsWriteFile]
       end)%list ∧
    ConfigManager.readPreferences w' = (Returned prefs, w').
Proof.
  destruct w as [[] wr tr]; simpl; intros ->; eexists;
    (split; [reflexivity|]); simpl; by rewrite <- ?app_assoc.
Qed.

Lemma writePreferences_round_trip_witness :
  ∃ w' : prefs_world,
    ConfigManager.writePreferences {| allowAnalytics := Some false |}
      sample_prefs_world = (Returned tt, w') ∧
    prefsFile w' = PrefsHold {| allowAnalytics := Some false |} ∧
    prefs_trace w' = [PrefsWriteFile] ∧
    ConfigManager.readPreferences w'
      = (Returned {| allowAnalytics := Some false |}, w').
Proof.
  apply (writePreferences_round_trip {| allowAnalytics := Some false |}
           sample_prefs_world).
  reflexivity.
Defined.

(** X19. When the preferences location cannot be written,
    [writePreferences] logs the error and raises it again; the file stays
    as it was and nothing is created or written. *)
Theorem writePreferences_unwritable (prefs : MCPPreferences) (w : prefs_world) :
  prefsWritable w = false →
  ConfigManager.writePreferences prefs w =
    (Raised PrefsEACCES,
     prefs_emit (PrefsConsoleError "Error writing preferences:") w).
Proof. by destruct w as [[] wr tr]; simpl; intros ->. Qed.

Lemma writePreferences_unwritable_witness :
  ConfigManager.writePreferences {| allowAnalytics := Some true |}
    locked_prefs_world =
    (Raised PrefsEACCES,
     prefs_emit (PrefsConsoleError "Error writing preferences:")
       locked_prefs_world).
Proof.
  apply (writePreferences_unwritable {| allowAnalytics := Some true |}
           locked_prefs_world).
  reflexivity.
Defined.

(** * Paths *)

(** X20. The two variants resolve the same Amazon Q path on every
    platform, [.aws/amazonq/mcp.json] under the home directory; and they
    resolve the same Claude path on macOS and on Windows with a non-empty
    [APPDATA]. *)
Theorem config_paths_agree (proc : process) :
  Config.getAmazonQConfigPath proc = ConfigManager.getAmazonQConfigPath proc ∧
  ConfigManager.getAmazonQConfigPath proc
    = (homedir proc ++ [".aws"; "amazonq"; "mcp.json"])%list ∧
  (process_platform proc = darwin ∨
     (process_platform proc = win32 ∧
      ∃ c cs, env_APPDATA proc = Some (c :: cs)) →
   Config.getConfigPath proc = ConfigManager.getConfigPath proc).
Proof.
  unfold Config.getConfigPath, ConfigManager.getConfigPath,
    ConfigManager.claudeConfigPath, Config.getAmazonQConfigPath,
    ConfigManager.getAmazonQConfigPath, ConfigManager.amazonQConfigPath, path_join.
  split; [by destruct (process_platform proc)|].
  split; [by destruct (process_platform proc)|].
  intros [->|[-> (c & cs & ->)]]; simpl.
  - by rewrite <- app_assoc.
  - done.
Qed.

Lemma config_paths_agree_witness :
  (Config.getAmazonQConfigPath linux_process
     = ConfigManager.getAmazonQConfigPath linux_process ∧
   ConfigManager.getAmazonQConfigPath linux_process
     = ["home"; "ada"; ".aws"; "amazonq"; "mcp.json"]) ∧
  Config.getConfigPath windows_process
    = ConfigManager.getConfigPath windows_process.
Proof.
  split.
  - destruct (config_paths_agree linux_process) as (H1 & H2 & _).
    split; [exact H1 | exact H2].
  - destruct (config_paths_agree windows_process) as (_ & _ & H).
    apply H. right. split; [reflexivity|]. eexists _, _. reflexivity.
Defined.

(** X21. The two variants resolve different Claude paths on a platform
    other than Windows and macOS whose [XDG_CONFIG_HOME] is unset or empty,
    where the free-function variant still uses the macOS location
    [Library/Application Support/Claude] under the home directory and
    [ConfigManager] uses [.config/Claude]; and on Windows with [APPDATA]
    unset or empty, where the free-function variant resolves a path that
    does not start from the home directory. *)
Theorem config_paths_differ (proc : process) :
  (process_platform proc = linux ∧ env_or (env_XDG_CONFIG_HOME proc) [] = []) ∨
    (process_platform proc = win32 ∧ env_or (env_APPDATA proc) [] = []) →
  Config.getConfigPath proc ≠ ConfigManager.getConfigPath proc ∧
  Config.getConfigPath proc =
    match process_platform proc with
    | win32 => ["Claude"; "claude_desktop_config.json"]
    | _ => (homedir proc ++
            ["Library"; "Application Support"; "Claude";
             "claude_desktop_config.json"])%list
    end ∧
  ConfigManager.getConfigPath proc =
    match process_platform proc with
    | win32 => (homedir proc ++
                ["AppData"; "Roaming"; "Claude"; "claude_desktop_config.json"])%list
    | _ => (homedir proc ++ [".config"; "Claude"; "claude_desktop_config.json"])%list
    end.
Proof.
  unfold Config.getConfigPath, ConfigManager.getConfigPath,
    ConfigManager.claudeConfigPath, path_join.
  intros [[-> Hx]|[-> Ha]]; simpl.
  - assert (env_or (env_XDG_CONFIG_HOME proc) (homedir proc ++ [".config"])
            = (homedir proc ++ [".config"])%list) as ->.
    { destruct (env_XDG_CONFIG_HOME proc) as [[|? ?]|]; done. }
    rewrite <- !app_assoc. simpl. split; [|done].
    intros H. apply (f_equal length) in H. rewrite !length_app in H.
    simpl in H. lia.
  - assert (env_or (env_APPDATA proc) (homedir proc ++ ["AppData"; "Roaming"])
            = (homedir proc ++ ["AppData"; "Roaming"])%list) as ->.
    { destruct (env_APPDATA proc) as [[|? ?]|]; done. }
    rewrite Ha, <- !app_assoc. simpl. split; [|done].
    intros H. apply (f_equal length) in H. rewrite !length_app in H.
    simpl in H. lia.
Qed.

Lemma config_paths_differ_witness :
  Config.getConfigPath linux_process ≠ ConfigManager.getConfigPath linux_process ∧
  Config.getConfigPath linux_process =
    ["home"; "ada"; "Library"; "Application Support"; "Claude";
     "claude_desktop_config.json"] ∧
  ConfigManager.getConfigPath linux_process =
    ["home"; "ada"; ".config"; "Claude"; "claude_desktop_config.json"].
Proof.
  apply (config_paths_differ linux_process).
  left. split; reflexivity.
Defined.

(** * Uninstalling twice, and uninstalling what is not installed *)

(** X22. Let the Claude file hold no server named [__proto__] and let the
    package name be none that objects inherit from [Object.prototype]. Two
    successful uninstalls in a row then always remove the package: after
    them [isPackageInstalled] answers [false], also for a package that was
    registered under both its dash form and its raw name, which a single
    uninstall leaves installed. *)
Theorem uninstallPackage_twice
    (packageName : string) (w w1 w2 : world) :
  file_servers (claudeFile w) !! "__proto__" = None →
  Object_prototype_prop packageName = NotInherited →
  ConfigManager.uninstallPackage packageName w = (Ok tt, w1) →
  ConfigManager.uninstallPackage packageName w1 = (Ok tt, w2) →
  (ConfigManager.isPackageInstalled packageName w2).1 = Ok false.
Proof.
  intros Hproto Hname Hun1 Hun2.
  destruct (CM_uninstall_merged _ _ _ Hproto Hname Hun1) as [H1 Hproto1].
  destruct (CM_uninstall_merged _ _ _ Hproto1 Hname Hun2) as [H2 Hproto2].
  rewrite CM_isPackageInstalled_plain by done. f_equal.
  set (m := merged_servers w) in *. set (m1 := merged_servers w1) in *.
  set (dash := replace_slashes packageName) in *.
  assert (merged_servers w2 !! dash = None ∧
          merged_servers w2 !! packageName = None) as [-> ->]; [|done].
  rewrite H2. clear H2.
  destruct (m !! dash) as [e|] eqn:Hd.
  - assert (m1 !! dash = None) as Hd1 by (rewrite H1; apply lookup_delete_eq).
    rewrite Hd1. destruct (m1 !! packageName) as [e'|] eqn:Hp1.
    + split; [|apply lookup_delete_eq].
      apply lookup_delete_None. by right.
    + done.
  - destruct (m !! packageName) as [e'|] eqn:Hp.
    + assert (m1 !! packageName = None) as Hp1
        by (rewrite H1; apply lookup_delete_eq).
      assert (m1 !! dash = None) as Hd1
        by (rewrite H1; apply lookup_delete_None; by right).
      by rewrite Hd1, Hp1.
    + rewrite H1, Hd, Hp. done.
Qed.

Lemma uninstallPackage_twice_witness :
  (ConfigManager.isPackageInstalled "foo/bar"
     (ConfigManager.uninstallPackage "foo/bar"
        (ConfigManager.uninstallPackage "foo/bar" legacy_world).2).2).1
    = Ok false.
Proof.
  apply (uninstallPackage_twice "foo/bar" legacy_world
           (ConfigManager.uninstallPackage "foo/bar" legacy_world).2
           (ConfigManager.uninstallPackage "foo/bar"
              (ConfigManager.uninstallPackage "foo/bar" legacy_world).2).2).
  - vm_compute. reflexivity.
  - vm_compute. reflexivity.
  - vm_compute. reflexivity.
  - vm_compute. reflexivity.
Defined.

(** X23. Let the Claude file hold no server named [__proto__] and let the
    package name be none that objects inherit from [Object.prototype].
    [uninstallPackage] then looks the package up in the merged
    configuration under its dash form first and under its raw name second.
    If the dash form holds an entry, that entry is removed; otherwise, if
    the raw name holds one, that one is removed; in both cases, when the
    operation returns normally, both host files have been written with the
    reduced map. If neither key holds an entry the operation returns
    normally, logs that the package is not installed, performs no
    directory creation and no file write, and leaves both host files as
    they were. *)
Theorem uninstallPackage_removes_or_reports
    (packageName : string) (w w0 w' : world) (merged : MCPConfig) (r : result unit) :
  file_servers (claudeFile w) !! "__proto__" = None →
  Object_prototype_prop packageName = NotInherited →
  ConfigManager.readMergedConfigs w = (Ok merged, w0) →
  ConfigManager.uninstallPackage packageName w = (r, w') →
  match get_server (replace_slashes packageName) merged,
        get_server packageName merged with
  | Some _, _ =>
      r = Ok tt → uninstalled (replace_slashes packageName) merged w w'
  | None, Some _ =>
      r = Ok tt → uninstalled packageName merged w w'
  | None, None =>
      r = Ok tt ∧ reported_not_installed packageName w w'
  end.
Proof.
  intros Hproto Hname. rewrite <- merged_config_proto in Hproto.
  pose proof (replace_slashes_not_inherited _ Hname) as Hdash.
  rewrite CM_readMergedConfigs_run. intros [= <- <-].
  rewrite CM_uninstallPackage_run, !server_truthy_plain by done.
  unfold get_server.
  change (or_empty (mcpServers (merged_config w))) with (merged_servers w).
  destruct (merged_servers w !! replace_slashes packageName) as [e1|]; simpl.
  { intros H ->. by apply CM_uninstall_writes. }
  destruct (merged_servers w !! packageName) as [e2|]; simpl.
  { intros H ->. by apply CM_uninstall_writes. }
  unfold console_log. intros [= <- <-]. split; [done|].
  split; [apply files_after_reads|]. simpl. split.
  - rewrite List.filter_app. simpl. rewrite app_nil_r. apply is_write_after_reads.
  - apply last_snoc.
Qed.

Lemma uninstallPackage_removes_or_reports_witness :
  uninstalled "foo-bar" legacy_merged legacy_world
    (ConfigManager.uninstallPackage "foo/bar" legacy_world).2 ∧
  uninstalled "foo/bar" slash_only_merged slash_only_world
    (ConfigManager.uninstallPackage "foo/bar" slash_only_world).2 ∧
  (Ok tt = Ok tt ∧
   reported_not_installed "foo/bar" sample_world
     (ConfigManager.uninstallPackage "foo/bar" sample_world).2).
Proof.
  assert (ConfigManager.readMergedConfigs legacy_world
            = (Ok legacy_merged, legacy_world)) as R1
    by (vm_compute; reflexivity).
  assert (ConfigManager.readMergedConfigs slash_only_world
            = (Ok slash_only_merged, slash_only_world)) as R2
    by (vm_compute; reflexivity).
  assert (ConfigManager.readMergedConfigs sample_world
            = (Ok sample_merged, sample_world)) as R3
    by (vm_compute; reflexivity).
  assert (∀ w, ConfigManager.uninstallPackage "foo/bar" w
            = ((ConfigManager.uninstallPackage "foo/bar" w).1,
               (ConfigManager.uninstallPackage "foo/bar" w).2)) as U
    by (intros w; apply surjective_pairing).
  assert (Object_prototype_prop "foo/bar" = NotInherited) as N
    by (vm_compute; reflexivity).
  split; [|split].
  - assert (file_servers (claudeFile legacy_world) !! "__proto__" = None) as Q
      by (vm_compute; reflexivity).
    pose proof (uninstallPackage_removes_or_reports "foo/bar" _ _ _ _ _
                  Q N R1 (U legacy_world)) as H.
    lazymatch goal with
    | |- ?G =>
        change ((ConfigManager.uninstallPackage "foo/bar" legacy_world).1
                  = Ok tt → G) in H
    end.
    apply H. vm_compute. reflexivity.
  - assert (file_servers (claudeFile slash_only_world) !! "__proto__" = None) as Q
      by (vm_compute; reflexivity).
    pose proof (uninstallPackage_removes_or_reports "foo/bar" _ _ _ _ _
                  Q N R2 (U slash_only_world)) as H.
    lazymatch goal with
    | |- ?G =>
        change ((ConfigManager.uninstallPackage "foo/bar" slash_only_world).1
                  = Ok tt → G) in H
    end.
    apply H. vm_compute. reflexivity.
  - assert (file_servers (claudeFile sample_world) !! "__proto__" = None) as Q
      by (vm_compute; reflexivity).
    exact (uninstallPackage_removes_or_reports "foo/bar" _ _ _ _ _
             Q N R3 (U sample_world)).
Defined.
